(** * Email task extractor: confidence scoring and review routing

    A shallow embedding of [task_extractor.py]: the rule-based confidence
    calculator, the three-lane review queue and the [process_email]
    pipeline, followed by the properties the specification states about
    them.

    Python values are embedded as they reach the code from [json.loads]:
    a dynamically typed value [pyval], dictionaries as finite maps from
    strings, floats as IEEE 754 binary64 numbers (the [spec_float] model
    of the standard library at precision 53, with round-to-nearest-even),
    integers as [Z].  A Python exception is a [Raise] in a small error
    monad.  The methods of the review queue pass the instance state
    explicitly.  What lies outside the repository is an input: the answer
    of the extractor, the API key of the process environment and the
    clock are the fields of a [world]; [str.lower] is a class parameter. *)

From Stdlib Require Import ZArith Ascii String List Bool Lia.
From Stdlib Require Import Floats.SpecFloat.
From stdpp Require Import base option gmap strings list fin_maps.

Open Scope string_scope.
Open Scope Z_scope.

(** ** Binary64 floating point *)

Module F64.

(** Precision and exponent bound of the binary64 format. *)
Definition prec : Z := 53.
Definition emax : Z := 1024.

(** A Python [float]. *)
Abbreviation t := spec_float.

(** The operations of the program, rounded to nearest, ties to even. *)
Definition add : t -> t -> t := SFadd prec emax.
Definition sub : t -> t -> t := SFsub prec emax.
Definition div : t -> t -> t := SFdiv prec emax.
Definition compare : t -> t -> option comparison := SFcompare.
Definition eqb : t -> t -> bool := SFeqb.
Definition ltb : t -> t -> bool := SFltb.
Definition leb : t -> t -> bool := SFleb.

Definition is_nan (x : t) : bool :=
  match x with S754_nan => true | _ => false end.

(** The nearest binary64 number to an integer (ties to even); an
    infinity when the integer is beyond the largest float. *)
Definition of_Z (z : Z) : t := binary_normalize prec emax z 0 false.

(** The float a decimal literal [n / 10^k] denotes: the correctly
    rounded quotient (numerator and denominator are exact for the
    literals of this program). *)
Definition decimal (n : Z) (k : Z) : t := div (of_Z n) (of_Z (10 ^ k)).

(** The float literals of the program, and [0.35] of the specification. *)
Definition zero : t := S754_zero false.
Definition one : t := Eval cbv in decimal 1 0.
Definition lit_0_10 : t := Eval cbv in decimal 10 2.
Definition lit_0_15 : t := Eval cbv in decimal 15 2.
Definition lit_0_20 : t := Eval cbv in decimal 20 2.
Definition lit_0_35 : t := Eval cbv in decimal 35 2.
Definition lit_0_5 : t := Eval cbv in decimal 5 1.
Definition lit_0_7 : t := Eval cbv in decimal 7 1.

(** Exact comparison of an integer with a float, as Python compares
    an [int] with a [float] (no conversion of the integer). *)
Definition Z_compare (z : Z) (x : t) : option comparison :=
  match x with
  | S754_nan => None
  | S754_infinity s => Some (if s then Gt else Lt)
  | S754_zero _ => Some (z ?= 0)
  | S754_finite s m e =>
      let v := cond_Zopp s (Zpos m) in
      Some (if 0 <=? e then z ?= v * 2 ^ e else z * 2 ^ (- e) ?= v)
  end.

End F64.

(** ** Python values, exceptions and built-ins *)

(** The exceptions the modelled code can raise. *)
Inductive pyexn : Type :=
| TypeError
| AttributeError
| KeyError
| IndexError
| OverflowError
| ValueError
| UnboundLocalError.

(** The outcome of a computation: a value, or a raised exception. *)
Inductive result (A : Type) : Type :=
| Ok (a : A)
| Raise (e : pyexn).

Arguments Ok {A} a.
Arguments Raise {A} e.

#[global] Instance result_ret : MRet result := fun A a => Ok a.

#[global] Instance result_bind : MBind result := fun A B f m =>
  match m with
  | Ok a => f a
  | Raise e => Raise e
  end.

(** The computation returns a value (it does not raise). *)
Definition returns {A : Type} (m : result A) : Prop := exists a, m = Ok a.

(** The values [json.loads] produces, and the float, list and dictionary
    values the program builds from them.  A [str] is held as the UTF-8
    encoding of its characters. *)
#[warnings="-register-all"]
Inductive pyval : Type :=
| PyNone
| PyBool (b : bool)
| PyInt (z : Z)
| PyFloat (f : F64.t)
| PyStr (s : string)
| PyList (l : list pyval)
| PyDict (d : gmap string pyval).

(** A Python [dict] with string keys. *)
Abbreviation dict := (gmap string pyval).

(** [d.get(key, default)] *)
Definition dict_get (d : dict) (key : string) (dflt : pyval) : pyval :=
  default dflt (d !! key).

(** [d[key]] *)
Definition dict_getitem (d : dict) (key : string) : result pyval :=
  match d !! key with
  | Some v => Ok v
  | None => Raise KeyError
  end.

(** Truth value of an object ([bool(v)], as tested by [if] and [not]). *)
Definition py_truthy (v : pyval) : bool :=
  match v with
  | PyNone => false
  | PyBool b => b
  | PyInt z => negb (z =? 0)
  | PyFloat f => negb (F64.eqb f F64.zero)
  | PyStr s => negb (String.eqb s "")
  | PyList l => match l with [] => false | _ :: _ => true end
  | PyDict d => match map_to_list d with [] => false | _ :: _ => true end
  end.

(** [v == s] for a string [s]: only an equal [str] compares equal. *)
Definition py_eq_str (v : pyval) (s : string) : bool :=
  match v with
  | PyStr s' => String.eqb s' s
  | _ => false
  end.

(** [str.lower]: the built-in is not part of the repository (it follows the
    Unicode case tables), so the development is parametric in it. *)
Class StrLower := str_lower : string -> string.

(** Lower-casing of the ASCII letters, every other byte unchanged: what
    [str.lower] does on ASCII text. *)
Definition ascii_lower_char (c : ascii) : ascii :=
  let n := nat_of_ascii c in
  if ((65 <=? n) && (n <=? 90))%nat then ascii_of_nat (n + 32) else c.

Fixpoint ascii_lower_string (s : string) : string :=
  match s with
  | EmptyString => EmptyString
  | String c rest => String (ascii_lower_char c) (ascii_lower_string rest)
  end.

Definition ascii_lower : StrLower := ascii_lower_string.

(** [v.lower()]: only a [str] has the method. *)
Definition py_lower `{StrLower} (v : pyval) : result string :=
  match v with
  | PyStr s => Ok (str_lower s)
  | _ => Raise AttributeError
  end.

(** [needle in hay] on strings: substring test. *)
Fixpoint str_in (needle hay : string) : bool :=
  String.prefix needle hay ||
  match hay with
  | EmptyString => false
  | String _ rest => str_in needle rest
  end.

(** [float(z)] for an [int]: rounds to nearest, and raises [OverflowError]
    when the integer is too large for a float. *)
Definition int_to_float (z : Z) : result F64.t :=
  match F64.of_Z z with
  | S754_infinity _ => Raise OverflowError
  | f => Ok f
  end.

(** The float operand that arithmetic with a float uses for [v]: a
    [float] itself, an [int] or [bool] converted, no other type. *)
Definition py_as_float (v : pyval) : result F64.t :=
  match v with
  | PyFloat f => Ok f
  | PyInt z => int_to_float z
  | PyBool b => int_to_float (Z.b2z b)
  | _ => Raise TypeError
  end.

(** [v - p] for a float [p]. *)
Definition py_sub_float (v : pyval) (p : F64.t) : result F64.t :=
  f ← py_as_float v; Ok (F64.sub f p).

(** [min(a, b)] and [max(a, b)] on floats: the first argument is kept
    unless the second is strictly smaller (larger). *)
Definition py_min (a b : F64.t) : F64.t := if F64.ltb b a then b else a.
Definition py_max (a b : F64.t) : F64.t := if F64.ltb a b then b else a.

(** Ordering of a value against a float [x]: defined on [float], [int]
    (compared exactly) and [bool]; [None] when unordered (a NaN). *)
Definition py_compare_float (v : pyval) (x : F64.t) : result (option comparison) :=
  match v with
  | PyFloat f => Ok (F64.compare f x)
  | PyInt z => Ok (F64.Z_compare z x)
  | PyBool b => Ok (F64.Z_compare (Z.b2z b) x)
  | _ => Raise TypeError
  end.

(** [v >= x] *)
Definition py_ge_float (v : pyval) (x : F64.t) : result bool :=
  c ← py_compare_float v x;
  Ok match c with Some (Gt | Eq) => true | _ => false end.

(** [v <= x] *)
Definition py_le_float (v : pyval) (x : F64.t) : result bool :=
  c ← py_compare_float v x;
  Ok match c with Some (Lt | Eq) => true | _ => false end.

(** [v == x]: numeric equality on [float], [int] and [bool], false for a
    value of any other type. *)
Definition py_eq_float (v : pyval) (x : F64.t) : bool :=
  match py_compare_float v x with
  | Ok (Some Eq) => true
  | _ => false
  end.

(** A byte [10xxxxxx] of a UTF-8 text continues the character begun
    before it. *)
Definition utf8_continuation (c : ascii) : bool :=
  match c with
  | Ascii _ _ _ _ _ _ false true => true
  | _ => false
  end.

(** The text goes on with a continuation byte. *)
Definition continues (s : string) : bool :=
  match s with
  | String c _ => utf8_continuation c
  | EmptyString => false
  end.

(** The characters of a [str], each with all the bytes of its encoding. *)
Fixpoint str_chars (s : string) : list string :=
  match s with
  | EmptyString => []
  | String c rest =>
      match str_chars rest with
      | ch :: more =>
          if continues rest then String c ch :: more
          else String c EmptyString :: ch :: more
      | [] => [String c EmptyString]
      end
  end.

(** [v[0]]: the first item of a list, the first character of a [str]. *)
Definition py_getitem_0 (v : pyval) : result pyval :=
  match v with
  | PyList (x :: _) => Ok x
  | PyList [] => Raise IndexError
  | PyStr s =>
      match str_chars s with
      | ch :: _ => Ok (PyStr ch)
      | [] => Raise IndexError
      end
  | PyDict _ => Raise KeyError
  | _ => Raise TypeError
  end.

(** The items a [for] loop visits: of a [str], its characters. *)
Definition py_iter (v : pyval) : result (list pyval) :=
  match v with
  | PyList l => Ok l
  | PyStr s => Ok (PyStr <$> str_chars s)
  | PyDict d => Ok ((fun kv => PyStr kv.1) <$> map_to_list d)
  | _ => Raise TypeError
  end.

(** [l.append(x)], as a new list. *)
Definition append {A : Type} (l : list A) (x : A) : list A := (l ++ [x])%list.

(** ** ConfidenceCalculator *)

Module ConfidenceCalculator.

Definition vague_words : list string :=
  ["maybe"; "might"; "possibly"; "consider"; "think about"].

Definition calculate_final_confidence `{StrLower} (task : dict) : result dict :=
  let llm_confidence := dict_get task "confidence_score" (PyFloat F64.zero) in
  let penalties := F64.zero in
  let adjustments : list pyval := [] in
  let '(penalties, adjustments) :=
    if negb (py_truthy (dict_get task "deadline" PyNone))
    then (F64.add penalties F64.lit_0_15,
          append adjustments (PyStr "No deadline specified (-0.15)"))
    else (penalties, adjustments) in
  let '(penalties, adjustments) :=
    if py_eq_str (dict_get task "assignee" PyNone) "unspecified"
    then (F64.add penalties F64.lit_0_20,
          append adjustments (PyStr "Assignee not specified (-0.20)"))
    else (penalties, adjustments) in
  description ← py_lower (dict_get task "task_description" (PyStr ""));
  let '(penalties, adjustments) :=
    if existsb (fun word => str_in word description) vague_words
    then (F64.add penalties F64.lit_0_10,
          append adjustments (PyStr "Vague language detected (-0.10)"))
    else (penalties, adjustments) in
  diff ← py_sub_float llm_confidence penalties;
  let final_confidence := py_max F64.zero (py_min F64.one diff) in
  Ok (<["llm_confidence" := llm_confidence]>
      (<["rule_penalties" := PyFloat penalties]>
      (<["final_confidence" := PyFloat final_confidence]>
      (<["adjustments" := PyList adjustments]>
      (<["needs_review" := PyBool (F64.ltb final_confidence F64.lit_0_7)]>
       ∅))))).

End ConfidenceCalculator.

(** ** TaskReviewQueue *)

Module TaskReviewQueue.

(** The instance state.  The thresholds are floats (their annotation in
    the source); each lane is a list of routed task dictionaries. *)
Record t : Type := Build {
  auto_approve_threshold : F64.t;
  high_priority_threshold : F64.t;
  auto_approved : list dict;
  standard_review : list dict;
  high_priority_review : list dict
}.

(** The constructor.  It stores its arguments and creates the three empty
    lanes; none of its statements can raise. *)
Definition __init__ (auto_approve_threshold high_priority_threshold : F64.t)
  : result t :=
  Ok {| auto_approve_threshold := auto_approve_threshold;
        high_priority_threshold := high_priority_threshold;
        auto_approved := [];
        standard_review := [];
        high_priority_review := [] |}.

(** A method: a computation on the instance state that may raise. *)
Definition method (A : Type) : Type := t -> result (A * t).

(** [now] is the text [datetime.now().isoformat()] gives at the call. *)
Definition route_task (now : string) (task confidence_metrics : dict)
  : method dict := fun self =>
  final_confidence ← dict_getitem confidence_metrics "final_confidence";
  let task_with_metadata :=
    <["routed_at" := PyStr now]>
    (<["confidence_metrics" := PyDict confidence_metrics]> task) in
  above_auto ← py_ge_float final_confidence (auto_approve_threshold self);
  if (above_auto : bool) then
    let task_with_metadata :=
      <["queue" := PyStr "auto_approved"]>
      (<["review_status" := PyStr "auto_approved"]> task_with_metadata) in
    Ok (task_with_metadata,
        {| auto_approve_threshold := auto_approve_threshold self;
           high_priority_threshold := high_priority_threshold self;
           auto_approved := append (auto_approved self) task_with_metadata;
           standard_review := standard_review self;
           high_priority_review := high_priority_review self |})
  else
    above_high ← py_ge_float final_confidence (high_priority_threshold self);
    if (above_high : bool) then
      let task_with_metadata :=
        <["queue" := PyStr "standard_review"]>
        (<["review_status" := PyStr "needs_review"]> task_with_metadata) in
      Ok (task_with_metadata,
          {| auto_approve_threshold := auto_approve_threshold self;
             high_priority_threshold := high_priority_threshold self;
             auto_approved := auto_approved self;
             standard_review := append (standard_review self) task_with_metadata;
             high_priority_review := high_priority_review self |})
    else
      let task_with_metadata :=
        <["queue" := PyStr "high_priority_review"]>
        (<["review_status" := PyStr "needs_urgent_review"]> task_with_metadata) in
      Ok (task_with_metadata,
          {| auto_approve_threshold := auto_approve_threshold self;
             high_priority_threshold := high_priority_threshold self;
             auto_approved := auto_approved self;
             standard_review := standard_review self;
             high_priority_review :=
               append (high_priority_review self) task_with_metadata |}).

Definition len (l : list dict) : Z := Z.of_nat (length l).

Definition get_summary : method dict := fun self =>
  Ok (<["total_tasks" :=
          PyInt (len (auto_approved self) + len (standard_review self)
                 + len (high_priority_review self))]>
      (<["auto_approved" := PyInt (len (auto_approved self))]>
      (<["standard_review" := PyInt (len (standard_review self))]>
      (<["high_priority_review" := PyInt (len (high_priority_review self))]>
       ∅))),
      self).

Definition get_review_tasks : method (list dict) := fun self =>
  Ok ((high_priority_review self ++ standard_review self)%list, self).

(** A client that makes a sequence of [route_task] calls on one
    instance, collecting what each call returns. *)
Record call : Type := Call {
  call_now : string;
  call_task : dict;
  call_metrics : dict
}.

Fixpoint route_tasks (calls : list call) : method (list dict) := fun self =>
  match calls with
  | [] => Ok ([], self)
  | c :: rest =>
      '(routed, self) ← route_task (call_now c) (call_task c) (call_metrics c) self;
      '(more, self) ← route_tasks rest self;
      Ok (routed :: more, self)
  end.

End TaskReviewQueue.

(** ** TaskExtractor *)

(** What the pipeline depends on outside the repository. *)
Record world : Type := World {
  (** [os.getenv('ANTHROPIC_API_KEY')] *)
  getenv_api_key : option string;
  (** The dictionary [extract_tasks] returned for an email and a sender:
      what the remote model answered once parsed, or an error response.
      The body of the method is modelled in [ExtractTasks] below. *)
  extracted : string -> option string -> dict;
  (** [datetime.now().isoformat()] at the [i]-th routing of the batch. *)
  clock : nat -> string
}.

Module TaskExtractor.

(** The instance state kept by the model: the API key. *)
Record t : Type := Build { api_key : string }.

(** [a or b] on optional strings: [a] unless it is [None] or empty. *)
Definition str_or (a b : option string) : option string :=
  match a with
  | Some s => if String.eqb s "" then b else Some s
  | None => b
  end.

(** The constructor: the key passed, else the key of the environment;
    [ValueError] when neither is set. *)
Definition __init__ (w : world) (api_key : option string) : result t :=
  match str_or api_key (getenv_api_key w) with
  | Some key => if String.eqb key "" then Raise ValueError else Ok {| api_key := key |}
  | None => Raise ValueError
  end.

(** The answer of the remote model, as the method returns it. *)
Definition extract_tasks (w : world) (self : t) (email_content : string)
    (sender : option string) : dict :=
  extracted w email_content sender.

(** [now] is the timestamp read from the clock. *)
Definition _create_error_response (now : string) (error_message : string) : dict :=
  <["tasks" := PyList []]>
  (<["overall_confidence" := PyFloat F64.zero]>
  (<["ambiguities" := PyList [PyStr error_message]]>
  (<["extraction_timestamp" := PyStr now]>
  (<["error" := PyBool true]>
   ∅)))).

End TaskExtractor.

(** ** The pipeline *)

(** A value whose [get] method is called: only a dictionary has it. *)
Definition as_dict (v : pyval) : result dict :=
  match v with
  | PyDict d => Ok d
  | _ => Raise AttributeError
  end.

(** The loop of [process_email] over the extracted tasks; [i] counts the
    routings made so far. *)
Fixpoint process_email_loop `{StrLower} (w : world) (i : nat)
    (tasks : list pyval) (processed_tasks : list dict)
    (queue : TaskReviewQueue.t) : result (list dict * TaskReviewQueue.t) :=
  match tasks with
  | [] => Ok (processed_tasks, queue)
  | task :: rest =>
      task ← as_dict task;
      confidence_metrics ← ConfidenceCalculator.calculate_final_confidence task;
      '(routed_task, queue) ←
        TaskReviewQueue.route_task (clock w i) task confidence_metrics queue;
      process_email_loop w (S i) rest (append processed_tasks routed_task) queue
  end.

(** The pipeline: build the extractor and the queue, extract, then either
    report the extraction error or score and route every task. *)
Definition process_email `{StrLower} (w : world) (email_content : string)
    (sender api_key : option string) : result dict :=
  extractor ← TaskExtractor.__init__ w api_key;
  queue ← TaskReviewQueue.__init__ F64.lit_0_7 F64.lit_0_5;
  let extraction_result :=
    TaskExtractor.extract_tasks w extractor email_content sender in
  if py_truthy (dict_get extraction_result "error" PyNone) then
    error ← py_getitem_0
              (dict_get extraction_result "ambiguities"
                 (PyList [PyStr "Unknown error"]));
    Ok (<["success" := PyBool false]>
        (<["error" := error]>
        (<["extraction_result" := PyDict extraction_result]>
         ∅)))
  else
    tasks ← py_iter (dict_get extraction_result "tasks" (PyList []));
    '(processed_tasks, queue) ← process_email_loop w 0 tasks [] queue;
    '(queue_summary, queue) ← TaskReviewQueue.get_summary queue;
    '(review_tasks, queue) ← TaskReviewQueue.get_review_tasks queue;
    Ok (<["success" := PyBool true]>
        (<["extraction_result" := PyDict extraction_result]>
        (<["processed_tasks" := PyList (PyDict <$> processed_tasks)]>
        (<["queue_summary" := PyDict queue_summary]>
        (<["auto_approved_tasks" :=
             PyList (PyDict <$> TaskReviewQueue.auto_approved queue)]>
        (<["review_tasks" := PyList (PyDict <$> review_tasks)]>
         ∅)))))).

(** * Vocabulary of the properties *)

Import ConfidenceCalculator.

(** ** Task records *)

(** The base confidence the calculator reads: the [confidence_score]
    entry, [0.0] when the record has none. *)
Definition score (task : dict) : pyval :=
  dict_get task "confidence_score" (PyFloat F64.zero).

(** A value arithmetic with a float accepts: a [float] of any sign and
    magnitude (infinities and NaN included), a [bool], or an [int] that
    converts to a float. *)
Definition numeric (v : pyval) : Prop :=
  match v with
  | PyFloat _ | PyBool _ => True
  | PyInt z => returns (int_to_float z)
  | _ => False
  end.

(** The description of the record is the text [s]; a record without
    [task_description] has the empty description. *)
Definition description_text (task : dict) (s : string) : Prop :=
  task !! "task_description" = Some (PyStr s) \/
  (task !! "task_description" = None /\ s = "").

(** A task record the calculator accepts: its confidence score is a number
    (or absent) and its description is text (or absent). *)
Definition task_well_typed (task : dict) : Prop :=
  numeric (score task) /\ exists s, description_text task s.

(** The hedge words, as the specification lists them. *)
Definition hedge_words : list string :=
  ["maybe"; "might"; "possibly"; "consider"; "think about"].

(** No hedge word occurs in the lower-cased description. *)
Definition no_hedge_word `{StrLower} (description : string) : Prop :=
  forall word, In word hedge_words -> str_in word (str_lower description) = false.

(** The three penalty rules, as conditions on a record. *)
Definition deadline_rule (task : dict) : bool :=
  negb (py_truthy (dict_get task "deadline" PyNone)).

Definition assignee_rule (task : dict) : bool :=
  py_eq_str (dict_get task "assignee" PyNone) "unspecified".

Definition vague_rule `{StrLower} (description : string) : bool :=
  existsb (fun word => str_in word (str_lower description)) hedge_words.

(** [p + x] when the rule fired, [p] otherwise. *)
Definition add_if (fired : bool) (x p : F64.t) : F64.t :=
  if fired then F64.add p x else p.

(** The penalties of the rules that fired, added in rule order from
    [0.0]. *)
Definition penalty_total (deadline assignee vague : bool) : F64.t :=
  add_if vague F64.lit_0_10
    (add_if assignee F64.lit_0_20
       (add_if deadline F64.lit_0_15 F64.zero)).

(** The adjustment texts of the rules that fired, in rule order. *)
Definition adjustment_list (deadline assignee vague : bool) : list pyval :=
  ((if deadline then [PyStr "No deadline specified (-0.15)"] else []) ++
   (if assignee then [PyStr "Assignee not specified (-0.20)"] else []) ++
   (if vague then [PyStr "Vague language detected (-0.10)"] else []))%list.

(** The dictionary of confidence metrics with the given entries. *)
Definition metrics (base : pyval) (pen fc : F64.t) (adj : list pyval) : dict :=
  <["llm_confidence" := base]>
  (<["rule_penalties" := PyFloat pen]>
  (<["final_confidence" := PyFloat fc]>
  (<["adjustments" := PyList adj]>
  (<["needs_review" := PyBool (F64.ltb fc F64.lit_0_7)]>
   ∅)))).

(** The specification's [clamp(x, lo, hi)]: [x] limited to the closed
    interval from [lo] to [hi]. *)
Definition spec_clamp (x lo hi : F64.t) : F64.t :=
  if F64.ltb x lo then lo else if F64.ltb hi x then hi else x.


(** ** Queues *)

(** The contents of the lane called [lane]. *)
Definition lane_contents (q : TaskReviewQueue.t) (lane : string) : list dict :=
  if String.eqb lane "auto_approved" then TaskReviewQueue.auto_approved q
  else if String.eqb lane "standard_review" then TaskReviewQueue.standard_review q
  else if String.eqb lane "high_priority_review" then TaskReviewQueue.high_priority_review q
  else [].

(** The outcome [r] of a [route_task] call on the queue [q]: the call
    returns a routed task that carries the lane and the status, appended
    at the end of that lane, every other lane and the thresholds being
    the same as before. *)
Definition routes_to (r : result (dict * TaskReviewQueue.t)) (q : TaskReviewQueue.t)
    (lane status : string) : Prop :=
  exists (rt : dict) (q' : TaskReviewQueue.t),
    r = Ok (rt, q') /\
    rt !! "queue" = Some (PyStr lane) /\
    rt !! "review_status" = Some (PyStr status) /\
    lane_contents q' lane = append (lane_contents q lane) rt /\
    (forall other, other <> lane -> lane_contents q' other = lane_contents q other) /\
    TaskReviewQueue.auto_approve_threshold q' = TaskReviewQueue.auto_approve_threshold q /\
    TaskReviewQueue.high_priority_threshold q' = TaskReviewQueue.high_priority_threshold q.

(** The lane and the status of a confidence value, from the outcome of the
    two threshold comparisons. *)
Definition band_lane (above_auto above_high : bool) : string :=
  if above_auto then "auto_approved"
  else if above_high then "standard_review"
  else "high_priority_review".

Definition band_status (above_auto above_high : bool) : string :=
  if above_auto then "auto_approved"
  else if above_high then "needs_review"
  else "needs_urgent_review".

(** A queue with the default thresholds [0.7] and [0.5]. *)
Definition default_thresholds (q : TaskReviewQueue.t) : Prop :=
  TaskReviewQueue.auto_approve_threshold q = F64.lit_0_7 /\
  TaskReviewQueue.high_priority_threshold q = F64.lit_0_5.

(** Thresholds the specification calls a configuration error: one of them
    outside [0, 1], or [high_priority_threshold > auto_approve_threshold]. *)
Definition invalid_thresholds (auto_approve high_priority : F64.t) : bool :=
  negb (F64.leb F64.zero auto_approve && F64.leb auto_approve F64.one)
  || negb (F64.leb F64.zero high_priority && F64.leb high_priority F64.one)
  || F64.ltb auto_approve high_priority.

(** A value that can be ordered against a float. *)
Definition comparable (v : pyval) : Prop :=
  match v with
  | PyFloat _ | PyInt _ | PyBool _ => True
  | _ => False
  end.

(** The call passes confidence metrics whose [final_confidence] is a
    number. *)
Definition call_well_typed (c : TaskReviewQueue.call) : Prop :=
  exists v, TaskReviewQueue.call_metrics c !! "final_confidence" = Some v /\ comparable v.

(** The routed task carries the lane name [lane]. *)
Definition in_lane (lane : string) (rt : dict) : bool :=
  py_eq_str (dict_get rt "queue" PyNone) lane.

(** Number of tasks held by the queue. *)
Definition queue_size (q : TaskReviewQueue.t) : nat :=
  (length (TaskReviewQueue.auto_approved q)
   + length (TaskReviewQueue.standard_review q)
   + length (TaskReviewQueue.high_priority_review q))%nat.

(** Two consecutive [get_summary] calls. *)
Definition get_summary_twice : TaskReviewQueue.method (dict * dict) := fun self =>
  '(first, self) ← TaskReviewQueue.get_summary self;
  '(second, self) ← TaskReviewQueue.get_summary self;
  Ok ((first, second), self).

(** ** Batches *)

(** The error message of a failed extraction: the first entry of its
    [ambiguities], ["Unknown error"] when it has no such entry. *)
Definition error_message (extraction_result : dict) (msg : pyval) : Prop :=
  (exists rest, extraction_result !! "ambiguities" = Some (PyList (msg :: rest))) \/
  (extraction_result !! "ambiguities" = None /\ msg = PyStr "Unknown error").

(** The keys [route_task] adds to a task. *)
Definition routing_keys : list string :=
  ["confidence_metrics"; "routed_at"; "review_status"; "queue"].

(** [rt] is the routed form of [task], routed at time [now]: it carries the
    confidence metrics of [task], the time, a lane with the status that
    goes with it, and otherwise the fields of [task]. *)
Definition routed_form `{StrLower} (now : string) (task rt : dict) : Prop :=
  exists (m : dict) (above_auto above_high : bool),
    calculate_final_confidence task = Ok m /\
    rt !! "confidence_metrics" = Some (PyDict m) /\
    rt !! "routed_at" = Some (PyStr now) /\
    rt !! "queue" = Some (PyStr (band_lane above_auto above_high)) /\
    rt !! "review_status" = Some (PyStr (band_status above_auto above_high)) /\
    (forall key, ~ In key routing_keys -> rt !! key = task !! key).


(** The four counts of the [queue_summary] of a batch result: total,
    auto-approved, standard review, high-priority review. *)
Definition summary_entries (r : result dict) : list (option pyval) :=
  match r with
  | Ok r =>
      match r !! "queue_summary" with
      | Some (PyDict summary) =>
          [summary !! "total_tasks"; summary !! "auto_approved";
           summary !! "standard_review"; summary !! "high_priority_review"]
      | _ => []
      end
  | Raise _ => []
  end.

(** * Sample inputs *)

(** The first scenario of the specification: no deadline, no assignee,
    base confidence [0.95]. *)
Definition task_sample : dict :=
  <["task_description" := PyStr "Finalize the REPORT"]>
  (<["assignee" := PyStr "unspecified"]>
  (<["deadline" := PyNone]>
  (<["priority" := PyStr "high"]>
  (<["confidence_score" := PyFloat (F64.decimal 95 2)]> ∅)))).

(** The second scenario: a hedge word, base confidence [0.6]. *)
Definition task_vague : dict :=
  <["task_description" := PyStr "Maybe schedule a meeting"]>
  (<["assignee" := PyStr "Mike"]>
  (<["deadline" := PyStr "2024-04-05"]>
  (<["confidence_score" := PyFloat (F64.decimal 6 1)]> ∅))).

(** A record on which no rule fires. *)
Definition task_clear : dict :=
  <["task_description" := PyStr "Send the Q1 report"]>
  (<["assignee" := PyStr "Sarah"]>
  (<["deadline" := PyStr "2024-03-20"]>
  (<["priority" := PyStr "high"]>
  (<["confidence_score" := PyFloat (F64.decimal 95 2)]> ∅)))).


(** A record without [confidence_score]. *)
Definition task_no_score : dict :=
  <["task_description" := PyStr "Update the client database"]>
  (<["assignee" := PyStr "Mike"]>
  (<["deadline" := PyStr "2024-04-05"]> ∅)).

(** A record whose deadline is the empty string. *)
Definition task_empty_deadline : dict :=
  <["task_description" := PyStr "Review the API documentation"]>
  (<["assignee" := PyStr "Engineering"]>
  (<["deadline" := PyStr ""]>
  (<["confidence_score" := PyFloat (F64.decimal 8 1)]> ∅))).

Definition timestamp_sample : string := "2024-03-01T09:00:00.000000".

Definition clock_sample (i : nat) : string :=
  match i with
  | O => "2024-03-01T09:00:00.000000"
  | _ => "2024-03-01T09:00:00.000250"
  end.

(** Confidence metrics with no penalty and the final confidence [fc]. *)
Definition metrics_sample (fc : F64.t) : dict :=
  metrics (PyFloat fc) F64.zero fc [].

(** A queue with the default thresholds, holding earlier tasks. *)
Definition queue_sample : TaskReviewQueue.t :=
  {| TaskReviewQueue.auto_approve_threshold := F64.lit_0_7;
     TaskReviewQueue.high_priority_threshold := F64.lit_0_5;
     TaskReviewQueue.auto_approved := [task_clear];
     TaskReviewQueue.standard_review := [];
     TaskReviewQueue.high_priority_review := [task_sample] |}.

Definition calls_sample : list TaskReviewQueue.call :=
  [ TaskReviewQueue.Call timestamp_sample task_clear (metrics_sample (F64.decimal 95 2));
    TaskReviewQueue.Call timestamp_sample task_no_score (metrics_sample F64.zero);
    TaskReviewQueue.Call timestamp_sample task_sample (metrics_sample (F64.decimal 6 1));
    TaskReviewQueue.Call timestamp_sample task_empty_deadline (metrics_sample F64.lit_0_5) ].

(** An error response of the extractor; its [tasks] entry is replaced by a
    value no calculator call would survive. *)
Definition extraction_failed : dict :=
  <["tasks" := PyList [PyInt 3]]>
  (TaskExtractor._create_error_response timestamp_sample
     "Invalid JSON response from LLM").

(** A successful extraction of three tasks. *)
Definition extraction_ok : dict :=
  <["tasks" := PyList [PyDict task_sample; PyDict task_clear; PyDict task_no_score]]>
  (<["overall_confidence" := PyFloat (F64.decimal 85 2)]>
  (<["ambiguities" := PyList []]>
  (<["extraction_timestamp" := PyStr timestamp_sample]>
  (<["model_used" := PyStr "claude-sonnet-4-20250514"]> ∅)))).

(** A world with a configured key, where the extraction of the email
    ["broken"] fails and that of every other email succeeds. *)
Definition world_sample : world :=
  {| getenv_api_key := Some "sk-sample";
     extracted := fun email_content _ =>
       if String.eqb email_content "broken" then extraction_failed else extraction_ok;
     clock := clock_sample |}.

(** * More of the program: vocabulary *)

(** A value arithmetic with a float rejects with [TypeError]. *)
Definition not_a_number (v : pyval) : Prop :=
  match v with
  | PyNone | PyStr _ | PyList _ | PyDict _ => True
  | _ => False
  end.

(** The penalty an adjustment text names. *)
Definition named_penalty (adjustment : pyval) : F64.t :=
  if py_eq_str adjustment "No deadline specified (-0.15)" then F64.lit_0_15
  else if py_eq_str adjustment "Assignee not specified (-0.20)" then F64.lit_0_20
  else if py_eq_str adjustment "Vague language detected (-0.10)" then F64.lit_0_10
  else F64.zero.

(** The float sum of the penalties the adjustments name, in list order. *)
Definition named_penalties (adjustments : list pyval) : F64.t :=
  fold_left (fun p a => F64.add p (named_penalty a)) adjustments F64.zero.

(** The two records agree on the four fields the calculator reads. *)
Definition same_scored_fields (t1 t2 : dict) : Prop :=
  t1 !! "confidence_score" = t2 !! "confidence_score" /\
  t1 !! "deadline" = t2 !! "deadline" /\
  t1 !! "assignee" = t2 !! "assignee" /\
  t1 !! "task_description" = t2 !! "task_description".

(** A record with a hedge word inside a longer word, and every field the
    calculator does not read changed. *)
Definition task_considerable : dict :=
  <["task_description" := PyStr "A CONSIDERABLE rework of the parser"]>
  (<["assignee" := PyStr "unspecified"]>
  (<["priority" := PyStr "low"]>
  (<["reasoning" := PyStr "explicit request"]>
  (<["confidence_score" := PyInt 1]> ∅)))).

(** The same record as [task_considerable] for the calculator, with other
    values in the fields it does not read. *)
Definition task_considerable_edited : dict :=
  <["priority" := PyStr "high"]> (delete "reasoning" task_considerable).

(** The trust rank of a lane: the higher, the less review. *)
Definition lane_rank (lane : string) : nat :=
  if String.eqb lane "auto_approved" then 2
  else if String.eqb lane "standard_review" then 1
  else 0.

(** The lane and status pairs [route_task] writes. *)
Definition lane_status_pairs : list (string * string) :=
  [("auto_approved", "auto_approved");
   ("standard_review", "needs_review");
   ("high_priority_review", "needs_urgent_review")].

(** A task that already carries routing metadata of an earlier routing. *)
Definition task_rerouted : dict :=
  <["queue" := PyStr "high_priority_review"]>
  (<["review_status" := PyStr "needs_urgent_review"]>
  (<["routed_at" := PyStr "2023-12-31T23:59:59"]> task_clear)).

(** A queue whose thresholds are in the wrong order. *)
Definition queue_inverted : TaskReviewQueue.t :=
  {| TaskReviewQueue.auto_approve_threshold := F64.decimal 3 1;
     TaskReviewQueue.high_priority_threshold := F64.decimal 9 1;
     TaskReviewQueue.auto_approved := [];
     TaskReviewQueue.standard_review := [];
     TaskReviewQueue.high_priority_review := [] |}.

(** ** The body of [extract_tasks] *)

Module ExtractTasks.

(** An exception raised inside the [try] block, as the handlers tell it
    apart: a [json.JSONDecodeError] or another [Exception]; [message] is
    [str(e)]. *)
Inductive raised : Type :=
| JSONDecodeError (message : string)
| OtherException (message : string).

(** What the remote call and the parsing of its text come to: the call, or
    the reading of [message.content[0].text], raised, and [response_text]
    was never assigned; or [json.loads(response_text)] raised; or it
    returned [result]. *)
Inductive answer : Type :=
| CallRaised (e : raised)
| LoadsRaised (response_text : string) (e : raised)
| Parsed (response_text : string) (result : pyval).

(** The text of the [TypeError] that [v[key] = value] raises when [v] is
    not a dictionary. *)
Definition setitem_error (v : pyval) : string :=
  match v with
  | PyNone => "'NoneType' object does not support item assignment"
  | PyBool _ => "'bool' object does not support item assignment"
  | PyInt _ => "'int' object does not support item assignment"
  | PyFloat _ => "'float' object does not support item assignment"
  | PyStr _ => "'str' object does not support item assignment"
  | PyList _ => "list indices must be integers or slices, not str"
  | PyDict _ => ""
  end.

(** The [try] block: the parsed answer with the two metadata entries set,
    or the exception raised, with [response_text] when it was assigned and
    the number of clock readings made so far (the timestamp is read before
    the item assignment is tried). *)
Definition try_block (time : nat -> string) (a : answer)
  : (option string * raised * nat) + dict :=
  match a with
  | CallRaised e => inl (None, e, 0%nat)
  | LoadsRaised response_text e => inl (Some response_text, e, 0%nat)
  | Parsed response_text (PyDict result) =>
      inr (<["model_used" := PyStr "claude-sonnet-4-20250514"]>
           (<["extraction_timestamp" := PyStr (time 0%nat)]> result))
  | Parsed response_text v =>
      inl (Some response_text, OtherException (setitem_error v), 1%nat)
  end.

(** The method: the lines it prints, and what it returns or raises.
    [time i] is the [i]-th reading of [datetime.now().isoformat()] during
    the call.  The handler of [JSONDecodeError] prints [response_text]: when
    the exception came before the assignment of [response_text], reading
    it raises [UnboundLocalError], which no handler catches. *)
Definition extract_tasks (time : nat -> string) (a : answer)
  : list string * result dict :=
  match try_block time a with
  | inr result => ([], Ok result)
  | inl (response_text, JSONDecodeError message, reads) =>
      let printed := ["Failed to parse LLM response as JSON: " ++ message] in
      match response_text with
      | Some text =>
          (append printed ("Raw response: " ++ text),
           Ok (TaskExtractor._create_error_response (time reads)
                 "Invalid JSON response from LLM"))
      | None => (printed, Raise UnboundLocalError)
      end
  | inl (_, OtherException message, reads) =>
      (["Error during task extraction: " ++ message],
       Ok (TaskExtractor._create_error_response (time reads) message))
  end.

End ExtractTasks.

(** The extraction failed and the failure is handled: with the message the
    error response carries. *)
Definition extraction_failure (a : ExtractTasks.answer) (message : string) : Prop :=
  match a with
  | ExtractTasks.Parsed _ (PyDict _) => False
  | ExtractTasks.Parsed _ v => message = ExtractTasks.setitem_error v
  | ExtractTasks.LoadsRaised _ (ExtractTasks.JSONDecodeError _) =>
      message = "Invalid JSON response from LLM"
  | ExtractTasks.LoadsRaised _ (ExtractTasks.OtherException m) => message = m
  | ExtractTasks.CallRaised (ExtractTasks.JSONDecodeError _) => False
  | ExtractTasks.CallRaised (ExtractTasks.OtherException m) => message = m
  end.

(** The clock reading an error response carries: the second one when the
    timestamp of a parsed answer had been read before the failure. *)
Definition error_reading (a : ExtractTasks.answer) : nat :=
  match a with
  | ExtractTasks.Parsed _ _ => 1
  | _ => 0
  end.

(** A usable API key: a non-empty string. *)
Definition usable_key (key : option string) : Prop :=
  exists k, key = Some k /\ k <> "".

(** ** The status shown by the web application *)

Module App.

(** [v[key]] for a string key. *)
Definition py_getitem_key (v : pyval) (key : string) : result pyval :=
  match v with
  | PyDict d => dict_getitem d key
  | _ => Raise TypeError
  end.

(** The emoji, the box class and the status shown for a processed task,
    for the threshold chosen in the sidebar. *)
Definition status_display (confidence_threshold : F64.t) (task : dict)
  : result (string * string * string) :=
  confidence_metrics ← dict_getitem task "confidence_metrics";
  confidence ← py_getitem_key confidence_metrics "final_confidence";
  above ← py_ge_float confidence confidence_threshold;
  if (above : bool) then Ok ("🟢", "success-box", "Auto-Approved")
  else
    above ← py_ge_float confidence F64.lit_0_5;
    if (above : bool) then Ok ("🟡", "warning-box", "Needs Review")
    else Ok ("🔴", "danger-box", "Urgent Review").

End App.

(** The status text the application shows for a [review_status]. *)
Definition shown_status (review_status : string) : string :=
  if String.eqb review_status "auto_approved" then "Auto-Approved"
  else if String.eqb review_status "needs_review" then "Needs Review"
  else "Urgent Review".

(** ** Batches, as the pipeline sees them *)

(** The extraction result can be processed: when it reports an error its
    message can be read, else its tasks are a sequence of well-typed
    records. *)
Definition processable (extraction_result : dict) : Prop :=
  if py_truthy (dict_get extraction_result "error" PyNone) then
    returns (py_getitem_0 (dict_get extraction_result "ambiguities"
                             (PyList [PyStr "Unknown error"])))
  else
    exists tasks : list dict,
      py_iter (dict_get extraction_result "tasks" (PyList [])) = Ok (PyDict <$> tasks) /\
      Forall task_well_typed tasks.

(** The entry [key] of a batch result is the list [tasks]. *)
Definition task_list_entry (r : dict) (key : string) (tasks : list dict) : Prop :=
  r !! key = Some (PyList (PyDict <$> tasks)).

(** The [queue_summary] of a batch result counts the lanes of [tasks]. *)
Definition summary_counts (r : dict) (tasks : list dict) : Prop :=
  exists summary : dict,
    r !! "queue_summary" = Some (PyDict summary) /\
    summary !! "total_tasks" = Some (PyInt (Z.of_nat (length tasks))) /\
    forall lane, In lane ["auto_approved"; "standard_review"; "high_priority_review"] ->
      summary !! lane = Some (PyInt (Z.of_nat (length (List.filter (in_lane lane) tasks)))).

(** The world [w] with another API key in its environment. *)
Definition with_environment_key (w : world) (key : option string) : world :=
  {| getenv_api_key := key; extracted := extracted w; clock := clock w |}.

(** The result of a failed batch. *)
Definition failure_result (error : pyval) (extraction_result : dict) : dict :=
  <["success" := PyBool false]>
  (<["error" := error]>
  (<["extraction_result" := PyDict extraction_result]> ∅)).

(** A value that cannot be subscripted nor iterated: [None] or a number. *)
Definition scalar (v : pyval) : Prop :=
  match v with
  | PyNone | PyBool _ | PyInt _ | PyFloat _ => True
  | _ => False
  end.

(** What scoring the loop item [task] raises. *)
Definition scoring_raises `{StrLower} (task : pyval) (e : pyexn) : Prop :=
  (task ← as_dict task; calculate_final_confidence task) = Raise e.

(** * More sample inputs *)

(** Records the calculator rejects: a description that is a number, a
    score sent as text, a score beyond the range of a float. *)
Definition task_numbered_description : dict :=
  <["task_description" := PyInt 7]> task_clear.

Definition task_text_score : dict :=
  <["confidence_score" := PyStr "0.95"]> task_clear.

Definition task_huge_score : dict :=
  <["confidence_score" := PyInt (10 ^ 400)]> task_clear.

(** An error response whose [ambiguities] were emptied. *)
Definition extraction_no_message : dict :=
  <["ambiguities" := PyList []]> extraction_failed.

Definition world_no_message : world :=
  {| getenv_api_key := Some "sk-sample";
     extracted := fun _ _ => extraction_no_message;
     clock := clock_sample |}.

(** An extraction whose second task is [null]. *)
Definition extraction_mixed : dict :=
  <["tasks" := PyList [PyDict task_clear; PyNone; PyDict task_sample]]> extraction_ok.

Definition world_mixed : world :=
  {| getenv_api_key := Some "sk-sample";
     extracted := fun _ _ => extraction_mixed;
     clock := clock_sample |}.

(** An error response whose [ambiguities] entry is a text, not a list. *)
Definition extraction_text_message : dict :=
  <["ambiguities" := PyStr "élan vital"]> extraction_failed.

Definition world_text_message : world :=
  {| getenv_api_key := Some "sk-sample";
     extracted := fun _ _ => extraction_text_message;
     clock := clock_sample |}.

(** The remote model answered a JSON array. *)
Definition answer_array : ExtractTasks.answer :=
  ExtractTasks.Parsed "[]" (PyList []).

(** A world in which [extract_tasks] returned what it returns for
    [answer_array]. *)
Definition world_array : world :=
  {| getenv_api_key := Some "sk-sample";
     extracted := fun _ _ =>
       TaskExtractor._create_error_response (clock_sample 1)
         "list indices must be integers or slices, not str";
     clock := clock_sample |}.


(** * Proof steps *)

(** Lookup of a literal key in a literal chain of insertions. *)
Ltac lookup := by simplify_map_eq.

(** Closes [no_hedge_word s] for a literal description, under
    [ascii_lower]. *)
Ltac hedge_free :=
  let word := fresh "word" in
  let Hw := fresh "Hw" in
  intros word Hw; unfold hedge_words in Hw; cbn [In] in Hw;
  destruct Hw as [<- | [<- | [<- | [<- | [<- | []]]]]]; vm_compute; reflexivity.

(** Reduces the binds of the error monad. *)
Ltac step := cbn [mbind result_bind].

(** * Properties *)

(** ** Dictionaries *)

Lemma dict_get_Some (d : dict) (key : string) (v dflt : pyval) :
  d !! key = Some v -> dict_get d key dflt = v.
Proof. unfold dict_get. intros ->. reflexivity. Qed.

Lemma dict_get_None (d : dict) (key : string) (dflt : pyval) :
  d !! key = None -> dict_get d key dflt = dflt.
Proof. unfold dict_get. intros ->. reflexivity. Qed.

Lemma metrics_lookup (base : pyval) (pen fc : F64.t) (adj : list pyval) :
  let m := metrics base pen fc adj in
  m !! "llm_confidence" = Some base /\
  m !! "rule_penalties" = Some (PyFloat pen) /\
  m !! "final_confidence" = Some (PyFloat fc) /\
  m !! "adjustments" = Some (PyList adj) /\
  m !! "needs_review" = Some (PyBool (F64.ltb fc F64.lit_0_7)).
Proof. unfold metrics. repeat split; lookup. Qed.

(** ** The float literals and conversions of the program *)

(** The literals are the binary64 numbers nearest to the decimals. *)
Example literal_bits :
  F64.lit_0_10 = S754_finite false 7205759403792794 (-56) /\
  F64.lit_0_15 = S754_finite false 5404319552844595 (-55) /\
  F64.lit_0_20 = S754_finite false 7205759403792794 (-55) /\
  F64.lit_0_35 = S754_finite false 6305039478318694 (-54) /\
  F64.lit_0_5 = S754_finite false 4503599627370496 (-53) /\
  F64.lit_0_7 = S754_finite false 6305039478318694 (-53) /\
  F64.one = S754_finite false 4503599627370496 (-52).
Proof. repeat split. Qed.

(** [0.15 + 0.20] is the float [0.35]; with the third penalty the sum is
    one unit in the last place below the float [0.45]. *)
Example penalty_sums :
  penalty_total true true false = F64.lit_0_35 /\
  penalty_total true true true = S754_finite false 8106479329266892 (-54) /\
  F64.decimal 45 2 = S754_finite false 8106479329266893 (-54).
Proof. repeat split. Qed.

(** [float(z)] succeeds up to the largest finite float and raises beyond
    the rounding boundary. *)
Example int_to_float_range :
  int_to_float 1 = Ok F64.one /\
  returns (int_to_float (2 ^ 1024 - 2 ^ 970 - 1)) /\
  int_to_float (2 ^ 1024 - 2 ^ 970) = Raise OverflowError /\
  int_to_float (- 10 ^ 400) = Raise OverflowError.
Proof.
  split; [reflexivity|]. split; [eexists; vm_compute; reflexivity|].
  split; vm_compute; reflexivity.
Qed.

(** ** Floating-point comparison and the clamp *)

Lemma ltb_leb (x y : F64.t) : F64.ltb x y = true -> F64.leb x y = true.
Proof.
  unfold F64.ltb, F64.leb, SFltb, SFleb.
  destruct (SFcompare x y) as [[]|]; congruence.
Qed.

Lemma eqb_compare (x y : F64.t) : F64.eqb x y = true -> F64.compare x y = Some Eq.
Proof.
  unfold F64.eqb, F64.compare, SFeqb.
  destruct (SFcompare x y) as [[]|]; congruence.
Qed.

Lemma compare_antisym (x y : F64.t) (c : comparison) :
  F64.compare x y = Some c -> F64.compare y x = Some (CompOpp c).
Proof.
  unfold F64.compare.
  destruct x as [sx|sx| |sx mx ex], y as [sy|sy| |sy my ey]; simpl;
    try discriminate;
    try (destruct sx); try (destruct sy); simpl;
    intros [= <-]; try reflexivity;
    rewrite (Z.compare_antisym ex ey);
    destruct (ex ?= ey); simpl; try reflexivity;
    rewrite (Pos.compare_cont_antisym mx my Eq); simpl;
    rewrite ?CompOpp_involutive; reflexivity.
Qed.

Lemma compare_refl (x : F64.t) :
  F64.is_nan x = false -> F64.compare x x = Some Eq.
Proof.
  destruct x as [s|s| |s m e]; simpl; try discriminate; intros _;
    destruct s; unfold F64.compare; simpl; try reflexivity;
    rewrite Z.compare_refl, Pos.compare_cont_refl; reflexivity.
Qed.

Lemma compare_is_Some (x y : F64.t) :
  F64.is_nan x = false -> F64.is_nan y = false ->
  exists c, F64.compare x y = Some c.
Proof.
  destruct x, y; simpl; try discriminate; intros _ _; eexists; reflexivity.
Qed.

Lemma sub_zero (f : F64.t) : F64.sub f F64.zero = f.
Proof. destruct f as [s|s| |s m e]; try reflexivity. destruct s; reflexivity. Qed.

(** [max(0.0, min(1.0, x))] always lies between [0.0] and [1.0]. *)
Lemma clamp_bounds (x : F64.t) :
  F64.leb F64.zero (py_max F64.zero (py_min F64.one x)) = true /\
  F64.leb (py_max F64.zero (py_min F64.one x)) F64.one = true.
Proof.
  unfold py_min. destruct (F64.ltb x F64.one) eqn:Hx1.
  - unfold py_max. destruct (F64.ltb F64.zero x) eqn:H0x.
    + split; apply ltb_leb; assumption.
    + split; reflexivity.
  - split; reflexivity.
Qed.

(** On every number (anything but a NaN) it is the clamp to [0, 1], up to
    the sign of zero. *)
Lemma clamp_spec (x : F64.t) :
  F64.is_nan x = false ->
  F64.eqb (py_max F64.zero (py_min F64.one x)) (spec_clamp x F64.zero F64.one) = true.
Proof.
  intros Hnan.
  destruct (compare_is_Some x F64.one Hnan eq_refl) as [c1 Hc1].
  destruct (compare_is_Some x F64.zero Hnan eq_refl) as [c0 Hc0].
  pose proof (compare_antisym _ _ _ Hc1) as Hc1'.
  pose proof (compare_antisym _ _ _ Hc0) as Hc0'.
  pose proof (compare_refl x Hnan) as Hxx.
  unfold F64.compare in *.
  unfold py_min, py_max, spec_clamp, F64.ltb, F64.eqb, SFltb, SFeqb.
  destruct c1, c0; cbn [CompOpp] in *;
    repeat (first [ rewrite Hc1 | rewrite Hc0 | rewrite Hc1' | rewrite Hc0'
                  | rewrite Hxx
                  | change (SFcompare F64.zero F64.one) with (Some Lt)
                  | change (SFcompare F64.one F64.one) with (Some Eq)
                  | change (SFcompare F64.zero F64.zero) with (Some Eq) ];
            cbv iota);
    try reflexivity.
  all: exfalso; clear Hc1' Hc0' Hxx;
    destruct x as [s|s| |s m e]; try discriminate Hnan; destruct s;
    first [ discriminate Hc0 | discriminate Hc1 ].
Qed.

(** A NaN is not clamped to a NaN: the comparisons of [min] and [max] fail
    and leave [1.0]. *)
Example clamp_nan : py_max F64.zero (py_min F64.one S754_nan) = F64.one.
Proof. reflexivity. Qed.

(** A float between [0.0] and [1.0] passes through the clamp (up to the
    sign of zero). *)
Lemma clamp_unit_interval (f : F64.t) :
  py_ge_float (PyFloat f) F64.zero = Ok true ->
  py_le_float (PyFloat f) F64.one = Ok true ->
  F64.compare f (py_max F64.zero (py_min F64.one f)) = Some Eq.
Proof.
  unfold py_ge_float, py_le_float. cbn [py_compare_float]. step.
  intros H0 H1.
  assert (Hnan : F64.is_nan f = false).
  { destruct f; try reflexivity. discriminate H0. }
  pose proof (clamp_spec f Hnan) as Hc.
  assert (Hid : spec_clamp f F64.zero F64.one = f).
  { unfold spec_clamp, F64.ltb, SFltb.
    destruct (F64.compare f F64.zero) as [c0|] eqn:Hc0; [|discriminate H0].
    destruct (F64.compare f F64.one) as [c1|] eqn:Hc1; [|discriminate H1].
    apply compare_antisym in Hc1. unfold F64.compare in *. rewrite Hc0, Hc1.
    destruct c0; try discriminate H0; destruct c1; try discriminate H1; reflexivity. }
  rewrite Hid in Hc. apply eqb_compare in Hc.
  apply compare_antisym in Hc. exact Hc.
Qed.

Lemma clamp_zero_minus_penalty (d a v : bool) :
  py_max F64.zero (py_min F64.one (F64.sub F64.zero (penalty_total d a v))) = F64.zero.
Proof. destruct d, a, v; vm_compute; reflexivity. Qed.

Lemma penalty_total_deadline (a v : bool) :
  F64.leb F64.lit_0_15 (penalty_total true a v) = true.
Proof. destruct a, v; vm_compute; reflexivity. Qed.

(** An integer between [0.0] and [1.0] is [0] or [1]. *)
Lemma int_unit_interval (z : Z) :
  py_ge_float (PyInt z) F64.zero = Ok true ->
  py_le_float (PyInt z) F64.one = Ok true ->
  z = 0 \/ z = 1.
Proof.
  unfold py_ge_float, py_le_float.
  cbn [py_compare_float mbind result_bind F64.Z_compare F64.zero F64.one].
  change (0 <=? -52) with false. cbv iota.
  change (cond_Zopp false (Z.pos 4503599627370496)) with 4503599627370496.
  change (2 ^ (- (-52))) with 4503599627370496.
  destruct (Z.compare_spec z 0); try discriminate;
    destruct (Z.compare_spec (z * 4503599627370496) 4503599627370496);
    try discriminate; intros _ _; lia.
Qed.

(** ** The confidence calculator *)

Lemma numeric_as_float (v : pyval) : numeric v <-> returns (py_as_float v).
Proof.
  destruct v as [| b | z | f | s | l | d]; simpl.
  - split; [intros [] | intros [? [=]]].
  - split; [intros _ | exact (fun _ => I)]. destruct b; eexists; reflexivity.
  - reflexivity.
  - split; [intros _ | exact (fun _ => I)]. eexists; reflexivity.
  - split; [intros [] | intros [? [=]]].
  - split; [intros [] | intros [? [=]]].
  - split; [intros [] | intros [? [=]]].
Qed.

(** ** Subtraction never invents a NaN *)









Section Scoring.

Context `{StrLower}.

Lemma vague_rule_false (s : string) : no_hedge_word s -> vague_rule s = false.
Proof.
  intros Hno. unfold vague_rule, hedge_words. cbn [existsb].
  rewrite !Hno; [reflexivity | ..]; unfold hedge_words; cbn [In]; tauto.
Qed.

(** The calculator on a well-typed record, rule by rule. *)
Lemma calculate_unfold (task : dict) (s : string) (f : F64.t) :
  description_text task s ->
  py_as_float (score task) = Ok f ->
  let pen := penalty_total (deadline_rule task) (assignee_rule task) (vague_rule s) in
  calculate_final_confidence task =
    Ok (metrics (score task) pen
          (py_max F64.zero (py_min F64.one (F64.sub f pen)))
          (adjustment_list (deadline_rule task) (assignee_rule task) (vague_rule s))).
Proof.
  intros Hs Hf pen. subst pen.
  unfold calculate_final_confidence.
  assert (Hd : dict_get task "task_description" (PyStr "") = PyStr s).
  { unfold dict_get. destruct Hs as [-> | [-> ->]]; reflexivity. }
  rewrite Hd. fold (score task). fold (deadline_rule task). fold (assignee_rule task).
  unfold py_sub_float.
  destruct (deadline_rule task), (assignee_rule task); cbn [py_lower]; step;
    change (existsb _ vague_words) with (vague_rule s);
    destruct (vague_rule s); step; rewrite Hf; reflexivity.
Qed.

(** The calculator returns exactly on the well-typed records. *)
Lemma calculate_returns_iff (task : dict) :
  returns (calculate_final_confidence task) <-> task_well_typed task.
Proof.
  split.
  - intros [m Hm]. revert Hm. unfold calculate_final_confidence.
    fold (score task). unfold py_sub_float.
    destruct (dict_get task "task_description" (PyStr "")) as [| | | |s| |] eqn:Hd;
      cbn [py_lower]; step;
      try (destruct (negb _), (py_eq_str _ _); discriminate).
    intros Hm. split.
    + apply numeric_as_float.
      destruct (py_as_float (score task)) as [f|] eqn:Hf; [eexists; reflexivity|].
      exfalso. destruct (negb _), (py_eq_str _ _), (existsb _ _); discriminate Hm.
    + unfold dict_get in Hd.
      destruct (task !! "task_description") as [v|] eqn:Hv.
      * exists s. left. rewrite Hv. f_equal. exact Hd.
      * exists "". right. split; [exact Hv | reflexivity].
  - intros [Hnum [s Hs]]. apply numeric_as_float in Hnum as [f Hf].
    eexists. exact (calculate_unfold task s f Hs Hf).
Qed.


(** C5. A task without deadline (absent or null), with the assignee
    ["unspecified"] and without hedge word in its lower-cased description
    gets [rule_penalties] equal to the float [0.35] and exactly two
    adjustments, the deadline entry before the assignee entry. *)
Theorem C5_deadline_and_assignee_penalties (task : dict) (s : string) :
  numeric (score task) ->
  description_text task s ->
  (task !! "deadline" = None \/ task !! "deadline" = Some PyNone) ->
  task !! "assignee" = Some (PyStr "unspecified") ->
  no_hedge_word s ->
  exists m : dict,
    calculate_final_confidence task = Ok m /\
    m !! "rule_penalties" = Some (PyFloat F64.lit_0_35) /\
    m !! "adjustments" =
      Some (PyList [PyStr "No deadline specified (-0.15)";
                    PyStr "Assignee not specified (-0.20)"]).
Proof.
  intros Hnum Hs Hd Ha Hv.
  apply numeric_as_float in Hnum as [f Hf].
  pose proof (calculate_unfold task s f Hs Hf) as Hcalc. cbv zeta in Hcalc.
  assert (Hdr : deadline_rule task = true).
  { unfold deadline_rule, dict_get. destruct Hd as [-> | ->]; reflexivity. }
  assert (Har : assignee_rule task = true).
  { unfold assignee_rule, dict_get. rewrite Ha. reflexivity. }
  rewrite Hdr, Har, (vague_rule_false s Hv) in Hcalc.
  eexists. split; [exact Hcalc|].
  split; [apply metrics_lookup | apply metrics_lookup].
Qed.

(** C8. When no penalty rule fires (a deadline that counts as present, an
    assignee other than ["unspecified"], no hedge word) and the base
    confidence [c] lies in [0, 1], the final confidence equals [c]. *)
Theorem C8_no_penalty_identity (task : dict) (c : pyval) (s : string) :
  task !! "confidence_score" = Some c ->
  py_ge_float c F64.zero = Ok true ->
  py_le_float c F64.one = Ok true ->
  py_truthy (dict_get task "deadline" PyNone) = true ->
  task !! "assignee" <> Some (PyStr "unspecified") ->
  description_text task s ->
  no_hedge_word s ->
  exists (m : dict) (fc : F64.t),
    calculate_final_confidence task = Ok m /\
    m !! "final_confidence" = Some (PyFloat fc) /\
    py_eq_float c fc = true /\
    m !! "rule_penalties" = Some (PyFloat F64.zero) /\
    m !! "adjustments" = Some (PyList []).
Proof.
  intros Hc H0 H1 Hd Ha Hs Hv.
  assert (Hscore : score task = c).
  { unfold score. apply dict_get_Some. exact Hc. }
  assert (Hdr : deadline_rule task = false).
  { unfold deadline_rule. rewrite Hd. reflexivity. }
  assert (Har : assignee_rule task = false).
  { unfold assignee_rule, dict_get.
    destruct (task !! "assignee") as [[| | | |a| |]|]; try reflexivity.
    cbn. apply String.eqb_neq. congruence. }
  assert (Hf : exists f, py_as_float c = Ok f /\
            py_eq_float c (py_max F64.zero (py_min F64.one f)) = true).
  { destruct c as [|b|z|f| | |]; try discriminate H0.
    - destruct b; eexists; (split; [reflexivity|]); reflexivity.
    - destruct (int_unit_interval z H0 H1) as [-> | ->];
        eexists; (split; [reflexivity|]); reflexivity.
    - exists f. split; [reflexivity|].
      unfold py_eq_float. cbn [py_compare_float].
      rewrite (clamp_unit_interval f H0 H1). reflexivity. }
  destruct Hf as (f & Hf & Heq).
  rewrite <- Hscore in Hf.
  pose proof (calculate_unfold task s f Hs Hf) as Hcalc. cbv zeta in Hcalc.
  rewrite Hdr, Har, (vague_rule_false s Hv) in Hcalc.
  change (penalty_total false false false) with F64.zero in Hcalc.
  change (adjustment_list false false false) with (@nil pyval) in Hcalc.
  rewrite sub_zero in Hcalc.
  eexists _, _. split; [exact Hcalc|].
  repeat split; try apply metrics_lookup. exact Heq.
Qed.

(** C10. The missing-deadline rule fires for every falsy deadline value,
    the empty string included: the penalty [0.15] is the first one added
    and ["No deadline specified (-0.15)"] is the first adjustment. *)
Theorem C10_falsy_deadline_penalised (task : dict) (d : pyval) (s : string) :
  task !! "deadline" = Some d ->
  d = PyStr "" \/ py_truthy d = false ->
  numeric (score task) ->
  description_text task s ->
  exists (m : dict) (pen : F64.t) (rest : list pyval),
    calculate_final_confidence task = Ok m /\
    m !! "rule_penalties" = Some (PyFloat pen) /\
    pen = add_if (vague_rule s) F64.lit_0_10
            (add_if (assignee_rule task) F64.lit_0_20
               (F64.add F64.zero F64.lit_0_15)) /\
    F64.leb F64.lit_0_15 pen = true /\
    m !! "adjustments" =
      Some (PyList (PyStr "No deadline specified (-0.15)" :: rest)).
Proof.
  intros Hd Hfalsy Hnum Hs.
  assert (Hdr : deadline_rule task = true).
  { unfold deadline_rule. rewrite (dict_get_Some _ _ _ _ Hd).
    destruct Hfalsy as [-> | ->]; reflexivity. }
  apply numeric_as_float in Hnum as [f Hf].
  pose proof (calculate_unfold task s f Hs Hf) as Hcalc. cbv zeta in Hcalc.
  rewrite Hdr in Hcalc.
  eexists _, _, _. split; [exact Hcalc|].
  split; [apply metrics_lookup|]. split; [reflexivity|].
  split; [apply penalty_total_deadline|].
  apply metrics_lookup.
Qed.

End Scoring.



Lemma C5_witness :
  exists m : dict,
    @calculate_final_confidence ascii_lower task_sample = Ok m /\
    m !! "rule_penalties" = Some (PyFloat F64.lit_0_35) /\
    m !! "adjustments" =
      Some (PyList [PyStr "No deadline specified (-0.15)";
                    PyStr "Assignee not specified (-0.20)"]).
Proof.
  apply (@C5_deadline_and_assignee_penalties ascii_lower task_sample
           "Finalize the REPORT").
  - vm_compute. exact I.
  - left. vm_compute. reflexivity.
  - right. vm_compute. reflexivity.
  - vm_compute. reflexivity.
  - hedge_free.
Defined.

Lemma C8_witness :
  exists (m : dict) (fc : F64.t),
    @calculate_final_confidence ascii_lower task_clear = Ok m /\
    m !! "final_confidence" = Some (PyFloat fc) /\
    py_eq_float (PyFloat (F64.decimal 95 2)) fc = true /\
    m !! "rule_penalties" = Some (PyFloat F64.zero) /\
    m !! "adjustments" = Some (PyList []).
Proof.
  apply (@C8_no_penalty_identity ascii_lower task_clear
           (PyFloat (F64.decimal 95 2)) "Send the Q1 report").
  - vm_compute. reflexivity.
  - vm_compute. reflexivity.
  - vm_compute. reflexivity.
  - vm_compute. reflexivity.
  - vm_compute. discriminate.
  - left. vm_compute. reflexivity.
  - hedge_free.
Defined.

Lemma C10_witness :
  exists (m : dict) (pen : F64.t) (rest : list pyval),
    @calculate_final_confidence ascii_lower task_empty_deadline = Ok m /\
    m !! "rule_penalties" = Some (PyFloat pen) /\
    pen = add_if (@vague_rule ascii_lower "Review the API documentation") F64.lit_0_10
            (add_if (assignee_rule task_empty_deadline) F64.lit_0_20
               (F64.add F64.zero F64.lit_0_15)) /\
    F64.leb F64.lit_0_15 pen = true /\
    m !! "adjustments" =
      Some (PyList (PyStr "No deadline specified (-0.15)" :: rest)).
Proof.
  apply (@C10_falsy_deadline_penalised ascii_lower task_empty_deadline (PyStr "")
           "Review the API documentation").
  - vm_compute. reflexivity.
  - left. reflexivity.
  - vm_compute. exact I.
  - left. vm_compute. reflexivity.
Defined.

(** The calculator on the sample records, under [ascii_lower]. *)

Example scenario_1_metrics :
  @calculate_final_confidence ascii_lower task_sample =
    Ok (metrics (PyFloat (F64.decimal 95 2)) F64.lit_0_35 (F64.decimal 6 1)
          [PyStr "No deadline specified (-0.15)";
           PyStr "Assignee not specified (-0.20)"]).
Proof.
  rewrite (@calculate_unfold ascii_lower task_sample "Finalize the REPORT" (F64.decimal 95 2));
    [ cbv zeta; f_equal; f_equal; vm_compute; reflexivity
    | left; vm_compute; reflexivity
    | vm_compute; reflexivity ].
Qed.

Example scenario_2_metrics :
  @calculate_final_confidence ascii_lower task_vague =
    Ok (metrics (PyFloat (F64.decimal 6 1)) F64.lit_0_10 F64.lit_0_5
          [PyStr "Vague language detected (-0.10)"]).
Proof.
  rewrite (@calculate_unfold ascii_lower task_vague "Maybe schedule a meeting" (F64.decimal 6 1));
    [ cbv zeta; f_equal; f_equal; vm_compute; reflexivity
    | left; vm_compute; reflexivity
    | vm_compute; reflexivity ].
Qed.

(** Records outside the calculator's domain make it raise. *)
Example calculator_raises :
  @calculate_final_confidence ascii_lower (<["confidence_score" := PyNone]> task_clear)
    = Raise TypeError /\
  @calculate_final_confidence ascii_lower (<["task_description" := PyNone]> task_clear)
    = Raise AttributeError /\
  @calculate_final_confidence ascii_lower
    (<["confidence_score" := PyInt (10 ^ 400)]> task_clear) = Raise OverflowError.
Proof. repeat split; vm_compute; reflexivity. Qed.

(** A NaN score gives the final confidence [1.0]. *)
Example calculator_nan :
  exists m : dict,
    @calculate_final_confidence ascii_lower
      (<["confidence_score" := PyFloat S754_nan]> task_clear) = Ok m /\
    m !! "final_confidence" = Some (PyFloat F64.one).
Proof.
  exists (metrics (PyFloat S754_nan) F64.zero F64.one []).
  split; [| apply metrics_lookup].
  rewrite (@calculate_unfold ascii_lower _ "Send the Q1 report" S754_nan);
    [ cbv zeta; f_equal; f_equal; vm_compute; reflexivity
    | left; vm_compute; reflexivity
    | vm_compute; reflexivity ].
Qed.

(** ** The review queue *)

Lemma py_ge_float_defined (v : pyval) (x y : F64.t) (b : bool) :
  py_ge_float v x = Ok b -> exists b', py_ge_float v y = Ok b'.
Proof.
  unfold py_ge_float.
  destruct v; cbn [py_compare_float]; step; try discriminate;
    intros _; eexists; reflexivity.
Qed.

Lemma py_ge_float_comparable (v : pyval) (x : F64.t) :
  comparable v -> exists b, py_ge_float v x = Ok b.
Proof.
  unfold py_ge_float.
  destruct v; cbn [comparable py_compare_float]; step;
    try (intros []); intros; eexists; reflexivity.
Qed.

(** One [route_task] call, from the outcome of its comparisons. *)
Lemma route_task_spec (q : TaskReviewQueue.t) (now : string)
    (task confidence_metrics : dict) (v : pyval) (above_auto above_high : bool) :
  confidence_metrics !! "final_confidence" = Some v ->
  py_ge_float v (TaskReviewQueue.auto_approve_threshold q) = Ok above_auto ->
  py_ge_float v (TaskReviewQueue.high_priority_threshold q) = Ok above_high ->
  routes_to (TaskReviewQueue.route_task now task confidence_metrics q) q
    (band_lane above_auto above_high) (band_status above_auto above_high).
Proof.
  intros Hv Hauto Hhigh.
  unfold TaskReviewQueue.route_task, dict_getitem. rewrite Hv.
  step. rewrite Hauto. step.
  destruct above_auto; [| rewrite Hhigh; step; destruct above_high ];
    cbn [band_lane band_status]; eexists _, _;
    (split; [reflexivity|]);
    (split; [lookup|]);
    (split; [lookup|]);
    (split; [reflexivity|]);
    (split; [|split; reflexivity]);
    intros other Hother; unfold lane_contents; cbn [TaskReviewQueue.auto_approved
      TaskReviewQueue.standard_review TaskReviewQueue.high_priority_review];
    destruct (String.eqb_spec other "auto_approved");
    destruct (String.eqb_spec other "standard_review");
    destruct (String.eqb_spec other "high_priority_review");
    congruence.
Qed.

(** [route_task] returns as soon as the final confidence is a number. *)
Lemma route_task_returns (q : TaskReviewQueue.t) (now : string)
    (task confidence_metrics : dict) (v : pyval) :
  confidence_metrics !! "final_confidence" = Some v ->
  comparable v ->
  exists above_auto above_high,
    routes_to (TaskReviewQueue.route_task now task confidence_metrics q) q
      (band_lane above_auto above_high) (band_status above_auto above_high).
Proof.
  intros Hv Hc.
  destruct (py_ge_float_comparable v (TaskReviewQueue.auto_approve_threshold q) Hc)
    as [b1 H1].
  destruct (py_ge_float_comparable v (TaskReviewQueue.high_priority_threshold q) Hc)
    as [b2 H2].
  exists b1, b2. exact (route_task_spec q now task confidence_metrics v b1 b2 Hv H1 H2).
Qed.

(** Without a numeric [final_confidence] the call raises. *)
Example route_task_raises :
  TaskReviewQueue.route_task timestamp_sample task_clear ∅ queue_sample
    = Raise KeyError /\
  TaskReviewQueue.route_task timestamp_sample task_clear
    (<["final_confidence" := PyStr "high"]> ∅) queue_sample = Raise TypeError.
Proof. split; reflexivity. Qed.

(** C2. [route_task] compares with [>=]: a final confidence at or above
    [auto_approve_threshold] goes to lane [auto_approved] with status
    [auto_approved]; otherwise one at or above [high_priority_threshold]
    goes to [standard_review] with status [needs_review]; otherwise the
    task goes to [high_priority_review] with status [needs_urgent_review].
    With the default thresholds, exactly [0.7] is auto-approved and
    exactly [0.5] goes to standard review. *)
Theorem C2_route_task_bands (q : TaskReviewQueue.t) (now : string)
    (task confidence_metrics : dict) (v : pyval) :
  confidence_metrics !! "final_confidence" = Some v ->
  let r := TaskReviewQueue.route_task now task confidence_metrics q in
  (py_ge_float v (TaskReviewQueue.auto_approve_threshold q) = Ok true ->
   routes_to r q "auto_approved" "auto_approved") /\
  (py_ge_float v (TaskReviewQueue.auto_approve_threshold q) = Ok false ->
   py_ge_float v (TaskReviewQueue.high_priority_threshold q) = Ok true ->
   routes_to r q "standard_review" "needs_review") /\
  (py_ge_float v (TaskReviewQueue.auto_approve_threshold q) = Ok false ->
   py_ge_float v (TaskReviewQueue.high_priority_threshold q) = Ok false ->
   routes_to r q "high_priority_review" "needs_urgent_review") /\
  (default_thresholds q -> v = PyFloat F64.lit_0_7 ->
   routes_to r q "auto_approved" "auto_approved") /\
  (default_thresholds q -> v = PyFloat F64.lit_0_5 ->
   routes_to r q "standard_review" "needs_review").
Proof.
  intros Hv r. subst r.
  repeat split.
  - intros Hauto.
    destruct (py_ge_float_defined v _ (TaskReviewQueue.high_priority_threshold q) _ Hauto)
      as [b Hhigh].
    exact (route_task_spec q now task confidence_metrics v true b Hv Hauto Hhigh).
  - intros Hauto Hhigh.
    exact (route_task_spec q now task confidence_metrics v false true Hv Hauto Hhigh).
  - intros Hauto Hhigh.
    exact (route_task_spec q now task confidence_metrics v false false Hv Hauto Hhigh).
  - intros [Ha Hh] ->.
    apply (route_task_spec q now task confidence_metrics _ true true Hv).
    + rewrite Ha. reflexivity.
    + rewrite Hh. reflexivity.
  - intros [Ha Hh] ->.
    apply (route_task_spec q now task confidence_metrics _ false true Hv).
    + rewrite Ha. reflexivity.
    + rewrite Hh. reflexivity.
Qed.

Lemma C2_witness :
  routes_to
    (TaskReviewQueue.route_task timestamp_sample task_clear
       (metrics_sample F64.lit_0_7) queue_sample)
    queue_sample "auto_approved" "auto_approved" /\
  routes_to
    (TaskReviewQueue.route_task timestamp_sample task_clear
       (metrics_sample F64.lit_0_5) queue_sample)
    queue_sample "standard_review" "needs_review".
Proof.
  split.
  - refine (proj1 (C2_route_task_bands queue_sample timestamp_sample task_clear
                     (metrics_sample F64.lit_0_7) (PyFloat F64.lit_0_7) _) _);
      vm_compute; reflexivity.
  - refine (proj1 (proj2 (C2_route_task_bands queue_sample timestamp_sample
                            task_clear (metrics_sample F64.lit_0_5)
                            (PyFloat F64.lit_0_5) _)) _ _);
      vm_compute; reflexivity.
Defined.

(** C3, as the code has it.  The constructor validates nothing: whatever
    the thresholds, it returns a queue that stores them and has three
    empty lanes; and routing on that queue does not fail either, whatever
    the thresholds, when the final confidence is a number. *)
Theorem C3_constructor_accepts_any_thresholds (auto_approve high_priority : F64.t) :
  exists q : TaskReviewQueue.t,
    TaskReviewQueue.__init__ auto_approve high_priority = Ok q /\
    TaskReviewQueue.auto_approve_threshold q = auto_approve /\
    TaskReviewQueue.high_priority_threshold q = high_priority /\
    TaskReviewQueue.auto_approved q = [] /\
    TaskReviewQueue.standard_review q = [] /\
    TaskReviewQueue.high_priority_review q = [] /\
    forall (now : string) (task confidence_metrics : dict) (v : pyval),
      confidence_metrics !! "final_confidence" = Some v ->
      comparable v ->
      returns (TaskReviewQueue.route_task now task confidence_metrics q).
Proof.
  eexists. split; [reflexivity|]. repeat split.
  intros now task cm v Hv Hc.
  match goal with
  | |- returns (TaskReviewQueue.route_task _ _ _ ?q) =>
      destruct (route_task_returns q now task cm v Hv Hc)
        as (b1 & b2 & rt & q' & Hr & _)
  end.
  exists (rt, q'). exact Hr.
Qed.

Lemma C3_witness :
  exists q : TaskReviewQueue.t,
    TaskReviewQueue.__init__ (F64.decimal 3 1) (F64.decimal 9 1) = Ok q /\
    returns (TaskReviewQueue.route_task timestamp_sample task_clear
               (metrics_sample F64.lit_0_5) q).
Proof.
  destruct (C3_constructor_accepts_any_thresholds (F64.decimal 3 1) (F64.decimal 9 1))
    as (q & Hq & _ & _ & _ & _ & _ & Hroute).
  exists q. split; [exact Hq|].
  apply (Hroute timestamp_sample task_clear (metrics_sample F64.lit_0_5)
           (PyFloat F64.lit_0_5)).
  - vm_compute. reflexivity.
  - exact I.
Defined.

(** C3 as stated fails: thresholds outside [0, 1] ([1.5] and [-2.0]), and
    thresholds in the wrong order ([0.3] below [0.9]), are configuration
    errors for the specification, and the constructor returns a queue for
    both. *)
Lemma C3_counterexample :
  (invalid_thresholds (F64.decimal 15 1) (F64.decimal (-2) 0) = true /\
   exists q, TaskReviewQueue.__init__ (F64.decimal 15 1) (F64.decimal (-2) 0) = Ok q) /\
  (invalid_thresholds (F64.decimal 3 1) (F64.decimal 9 1) = true /\
   exists q, TaskReviewQueue.__init__ (F64.decimal 3 1) (F64.decimal 9 1) = Ok q).
Proof.
  split; (split; [vm_compute; reflexivity | eexists; reflexivity]).
Qed.

(** One [route_task] call, lane by lane: the routed task is appended to the
    lane whose name it carries and to no other. *)
Lemma routes_to_lanes (r : result (dict * TaskReviewQueue.t)) (q q' : TaskReviewQueue.t)
    (rt : dict) (lane status : string) :
  routes_to r q lane status ->
  r = Ok (rt, q') ->
  forall l, lane_contents q' l = (lane_contents q l ++ List.filter (in_lane l) [rt])%list.
Proof.
  intros (rt0 & q0 & Hr & Hqueue & _ & Hlane & Hother & _) Hr' l.
  rewrite Hr in Hr'. injection Hr' as -> ->.
  cbn [List.filter]. unfold in_lane. rewrite (dict_get_Some _ _ _ _ Hqueue).
  cbn [py_eq_str].
  destruct (String.eqb_spec lane l) as [<- | Hne].
  - exact Hlane.
  - rewrite app_nil_r. apply Hother. congruence.
Qed.

Lemma routes_to_size (r : result (dict * TaskReviewQueue.t)) (q q' : TaskReviewQueue.t)
    (rt : dict) (above_auto above_high : bool) :
  routes_to r q (band_lane above_auto above_high) (band_status above_auto above_high) ->
  r = Ok (rt, q') ->
  queue_size q' = S (queue_size q).
Proof.
  intros Hroutes Hr.
  pose proof (routes_to_lanes r q q' rt _ _ Hroutes Hr) as Hl.
  pose proof (Hl "auto_approved") as Ha.
  pose proof (Hl "standard_review") as Hs.
  pose proof (Hl "high_priority_review") as Hh.
  destruct Hroutes as (rt0 & q0 & Hr0 & Hqueue & _).
  rewrite Hr0 in Hr. injection Hr as -> ->.
  cbn [lane_contents String.eqb Ascii.eqb Bool.eqb] in Ha, Hs, Hh.
  unfold queue_size. rewrite Ha, Hs, Hh, !length_app.
  cbn [List.filter]. unfold in_lane. rewrite (dict_get_Some _ _ _ _ Hqueue).
  destruct above_auto, above_high; cbn; lia.
Qed.

(** A sequence of well-typed [route_task] calls returns; each lane grows
    by the routed tasks that carry its name, in call order. *)
Lemma route_tasks_spec (calls : list TaskReviewQueue.call) :
  Forall call_well_typed calls ->
  forall q : TaskReviewQueue.t,
  exists (routed : list dict) (q' : TaskReviewQueue.t),
    TaskReviewQueue.route_tasks calls q = Ok (routed, q') /\
    length routed = length calls /\
    (forall l, lane_contents q' l =
               (lane_contents q l ++ List.filter (in_lane l) routed)%list) /\
    queue_size q' = (queue_size q + length calls)%nat.
Proof.
  induction 1 as [| c calls (v & Hv & Hc) _ IH]; intros q.
  - exists [], q. cbn [TaskReviewQueue.route_tasks List.filter length].
    repeat split; [| lia]. intros l. rewrite app_nil_r. reflexivity.
  - destruct (route_task_returns q (TaskReviewQueue.call_now c)
                (TaskReviewQueue.call_task c) _ v Hv Hc)
      as (b1 & b2 & Hroutes).
    pose proof Hroutes as (rt & q1 & Hr & _).
    pose proof (routes_to_lanes _ q q1 rt _ _ Hroutes Hr) as Hlanes.
    pose proof (routes_to_size _ q q1 rt _ _ Hroutes Hr) as Hsize.
    destruct (IH q1) as (more & q' & Hmore & Hlen & Hl & Hsz).
    exists (rt :: more), q'.
    cbn [TaskReviewQueue.route_tasks]. rewrite Hr. step.
    rewrite Hmore. step. cbn [length].
    repeat split.
    + lia.
    + intros l. rewrite Hl, Hlanes, <- List.app_assoc. f_equal.
      cbn [List.filter]. destruct (in_lane l rt); reflexivity.
    + lia.
Qed.

Lemma in_lane_unique (rt : dict) (l1 l2 : string) :
  in_lane l1 rt = true -> in_lane l2 rt = true -> l1 = l2.
Proof.
  unfold in_lane. destruct (dict_get rt "queue" PyNone); try discriminate.
  cbn [py_eq_str]. intros H1 H2.
  apply String.eqb_eq in H1, H2. congruence.
Qed.

(** C6. After any sequence of [route_task] calls on a new queue,
    [get_review_tasks] returns the [high_priority_review] lane followed by
    the [standard_review] lane, each holding the tasks routed to it in call
    order, and nothing that is in the [auto_approved] lane. *)
Theorem C6_review_tasks_order (auto_approve high_priority : F64.t)
    (calls : list TaskReviewQueue.call) :
  Forall call_well_typed calls ->
  exists (q0 : TaskReviewQueue.t) (routed : list dict) (q : TaskReviewQueue.t),
    TaskReviewQueue.__init__ auto_approve high_priority = Ok q0 /\
    TaskReviewQueue.route_tasks calls q0 = Ok (routed, q) /\
    TaskReviewQueue.get_review_tasks q =
      Ok ((TaskReviewQueue.high_priority_review q
           ++ TaskReviewQueue.standard_review q)%list, q) /\
    TaskReviewQueue.high_priority_review q =
      List.filter (in_lane "high_priority_review") routed /\
    TaskReviewQueue.standard_review q =
      List.filter (in_lane "standard_review") routed /\
    TaskReviewQueue.auto_approved q =
      List.filter (in_lane "auto_approved") routed /\
    (forall rt : dict,
       In rt (TaskReviewQueue.high_priority_review q
              ++ TaskReviewQueue.standard_review q)%list ->
       ~ In rt (TaskReviewQueue.auto_approved q)).
Proof.
  intros Hcalls.
  eexists.
  destruct (route_tasks_spec calls Hcalls
              {| TaskReviewQueue.auto_approve_threshold := auto_approve;
                 TaskReviewQueue.high_priority_threshold := high_priority;
                 TaskReviewQueue.auto_approved := [];
                 TaskReviewQueue.standard_review := [];
                 TaskReviewQueue.high_priority_review := [] |})
    as (routed & q & Hrun & _ & Hl & _).
  exists routed, q.
  pose proof (Hl "auto_approved") as Ha.
  pose proof (Hl "standard_review") as Hs.
  pose proof (Hl "high_priority_review") as Hh.
  cbn in Ha, Hs, Hh.
  split; [reflexivity|]. split; [exact Hrun|]. split; [reflexivity|].
  split; [exact Hh|]. split; [exact Hs|]. split; [exact Ha|].
  intros rt Hin Hauto.
  rewrite Ha in Hauto. apply List.filter_In in Hauto as [_ Hauto].
  rewrite Hh, Hs in Hin. apply List.in_app_or in Hin as [Hin | Hin];
    apply List.filter_In in Hin as [_ Hin];
    pose proof (in_lane_unique rt _ _ Hauto Hin); discriminate.
Qed.

Lemma C6_witness :
  exists (q0 : TaskReviewQueue.t) (routed : list dict) (q : TaskReviewQueue.t),
    TaskReviewQueue.__init__ F64.lit_0_7 F64.lit_0_5 = Ok q0 /\
    TaskReviewQueue.route_tasks calls_sample q0 = Ok (routed, q) /\
    TaskReviewQueue.get_review_tasks q =
      Ok ((TaskReviewQueue.high_priority_review q
           ++ TaskReviewQueue.standard_review q)%list, q) /\
    TaskReviewQueue.high_priority_review q =
      List.filter (in_lane "high_priority_review") routed /\
    TaskReviewQueue.standard_review q =
      List.filter (in_lane "standard_review") routed /\
    TaskReviewQueue.auto_approved q =
      List.filter (in_lane "auto_approved") routed /\
    (forall rt : dict,
       In rt (TaskReviewQueue.high_priority_review q
              ++ TaskReviewQueue.standard_review q)%list ->
       ~ In rt (TaskReviewQueue.auto_approved q)).
Proof.
  apply (C6_review_tasks_order F64.lit_0_7 F64.lit_0_5 calls_sample).
  repeat constructor; eexists; (split; [vm_compute; reflexivity | exact I]).
Defined.

(** C7. After [n] calls of [route_task] on a new queue, [get_summary]
    leaves the queue as it is, its [total_tasks] is the sum of the three
    lane counts and equals [n], and a second call returns the same
    summary. *)
Theorem C7_summary_counts (auto_approve high_priority : F64.t)
    (calls : list TaskReviewQueue.call) :
  Forall call_well_typed calls ->
  exists (q0 : TaskReviewQueue.t) (routed : list dict) (q : TaskReviewQueue.t)
         (summary : dict) (na ns nh : Z),
    TaskReviewQueue.__init__ auto_approve high_priority = Ok q0 /\
    TaskReviewQueue.route_tasks calls q0 = Ok (routed, q) /\
    TaskReviewQueue.get_summary q = Ok (summary, q) /\
    summary !! "auto_approved" = Some (PyInt na) /\
    summary !! "standard_review" = Some (PyInt ns) /\
    summary !! "high_priority_review" = Some (PyInt nh) /\
    summary !! "total_tasks" = Some (PyInt (na + ns + nh)) /\
    na + ns + nh = Z.of_nat (length calls) /\
    get_summary_twice q = Ok ((summary, summary), q).
Proof.
  intros Hcalls.
  eexists.
  destruct (route_tasks_spec calls Hcalls
              {| TaskReviewQueue.auto_approve_threshold := auto_approve;
                 TaskReviewQueue.high_priority_threshold := high_priority;
                 TaskReviewQueue.auto_approved := [];
                 TaskReviewQueue.standard_review := [];
                 TaskReviewQueue.high_priority_review := [] |})
    as (routed & q & Hrun & _ & _ & Hsize).
  exists routed, q. eexists _, _, _, _.
  split; [reflexivity|]. split; [exact Hrun|]. split; [reflexivity|].
  split; [lookup|]. split; [lookup|]. split; [lookup|]. split; [lookup|].
  split; [|reflexivity].
  unfold TaskReviewQueue.len. unfold queue_size in Hsize. cbn in Hsize. lia.
Qed.

Lemma C7_witness :
  exists (q0 : TaskReviewQueue.t) (routed : list dict) (q : TaskReviewQueue.t)
         (summary : dict) (na ns nh : Z),
    TaskReviewQueue.__init__ F64.lit_0_7 F64.lit_0_5 = Ok q0 /\
    TaskReviewQueue.route_tasks calls_sample q0 = Ok (routed, q) /\
    TaskReviewQueue.get_summary q = Ok (summary, q) /\
    summary !! "auto_approved" = Some (PyInt na) /\
    summary !! "standard_review" = Some (PyInt ns) /\
    summary !! "high_priority_review" = Some (PyInt nh) /\
    summary !! "total_tasks" = Some (PyInt (na + ns + nh)) /\
    na + ns + nh = Z.of_nat (length calls_sample) /\
    get_summary_twice q = Ok ((summary, summary), q).
Proof.
  apply (C7_summary_counts F64.lit_0_7 F64.lit_0_5 calls_sample).
  repeat constructor; eexists; (split; [vm_compute; reflexivity | exact I]).
Defined.

(** ** The pipeline *)

Section Pipeline.

Context `{StrLower}.

(** What one iteration of the loop produces for a well-typed task. *)
Lemma route_calculated (q : TaskReviewQueue.t) (now : string) (task : dict) :
  task_well_typed task ->
  exists (m rt : dict) (q' : TaskReviewQueue.t),
    calculate_final_confidence task = Ok m /\
    TaskReviewQueue.route_task now task m q = Ok (rt, q') /\
    routed_form now task rt.
Proof.
  intros [Hnum [s Hs]].
  apply numeric_as_float in Hnum as [f Hf].
  pose proof (calculate_unfold task s f Hs Hf) as Hcalc. cbv zeta in Hcalc.
  set (m := metrics _ _ _ _) in Hcalc.
  assert (Hfc : exists fc, m !! "final_confidence" = Some (PyFloat fc)).
  { eexists. apply metrics_lookup. }
  destruct Hfc as [fc Hfc].
  destruct (route_task_returns q now task m (PyFloat fc) Hfc I)
    as (b1 & b2 & rt & q' & Hr & Hqueue & Hstatus & _).
  exists m, rt, q'. split; [exact Hcalc|]. split; [exact Hr|].
  exists m, b1, b2. split; [exact Hcalc|].
  revert Hr. unfold TaskReviewQueue.route_task, dict_getitem. rewrite Hfc. step.
  destruct (py_ge_float (PyFloat fc) (TaskReviewQueue.auto_approve_threshold q))
    as [[] |]; step;
    [| destruct (py_ge_float (PyFloat fc) (TaskReviewQueue.high_priority_threshold q))
         as [[] |]; step |];
    try discriminate; intros [= <- _];
    (split; [lookup|]); (split; [lookup|]);
    (split; [exact Hqueue|]); (split; [exact Hstatus|]);
    intros key Hkey; unfold routing_keys in Hkey; cbn [In] in Hkey;
    rewrite !lookup_insert_ne by (intros <-; tauto); reflexivity.
Qed.

(** The loop over well-typed tasks returns, with one routed form per task
    in input order. *)
Lemma process_email_loop_spec (w : world) (tasks : list dict) :
  Forall task_well_typed tasks ->
  forall (i : nat) (processed : list dict) (q : TaskReviewQueue.t),
  exists (routed : list dict) (q' : TaskReviewQueue.t),
    process_email_loop w i (PyDict <$> tasks) processed q
      = Ok ((processed ++ routed)%list, q') /\
    length routed = length tasks /\
    forall (j : nat) (task : dict),
      tasks !! j = Some task ->
      exists rt, routed !! j = Some rt /\ routed_form (clock w (i + j)%nat) task rt.
Proof.
  induction 1 as [| task tasks Htask _ IH]; intros i processed q.
  - exists [], q. rewrite app_nil_r. split; [reflexivity|]. split; [reflexivity|].
    intros j task Hj. discriminate Hj.
  - destruct (route_calculated q (clock w i) task Htask) as (m & rt & q1 & Hm & Hr & Hform).
    destruct (IH (S i) (append processed rt) q1) as (routed & q' & Hloop & Hlen & Hrouted).
    exists (rt :: routed), q'.
    rewrite fmap_cons. cbn [process_email_loop as_dict]. step.
    rewrite Hm. step. rewrite Hr. step.
    rewrite Hloop. unfold append. rewrite <- List.app_assoc.
    split; [reflexivity|]. split; [cbn [length]; lia|].
    intros [| j] t Hj.
    + injection Hj as <-. exists rt. rewrite Nat.add_0_r. split; [reflexivity | exact Hform].
    + rewrite Nat.add_succ_r. exact (Hrouted j t Hj).
Qed.


(** C9. A record without [confidence_score] is scored from the base
    confidence [0.0]: its final confidence is [0.0], and with the default
    thresholds [route_task] puts it in lane [high_priority_review] with
    status [needs_urgent_review]. *)
Theorem C9_missing_score_routed_urgent (task : dict) (s now : string)
    (q : TaskReviewQueue.t) :
  task !! "confidence_score" = None ->
  description_text task s ->
  default_thresholds q ->
  exists m : dict,
    calculate_final_confidence task = Ok m /\
    m !! "llm_confidence" = Some (PyFloat F64.zero) /\
    m !! "final_confidence" = Some (PyFloat F64.zero) /\
    routes_to (TaskReviewQueue.route_task now task m q) q
      "high_priority_review" "needs_urgent_review".
Proof.
  intros Hc Hs [Ha Hh].
  assert (Hscore : score task = PyFloat F64.zero).
  { unfold score. apply dict_get_None. exact Hc. }
  assert (Hf : py_as_float (score task) = Ok F64.zero).
  { rewrite Hscore. reflexivity. }
  pose proof (calculate_unfold task s F64.zero Hs Hf) as Hcalc. cbv zeta in Hcalc.
  rewrite clamp_zero_minus_penalty, Hscore in Hcalc.
  eexists. split; [exact Hcalc|].
  split; [apply metrics_lookup|]. split; [apply metrics_lookup|].
  apply (route_task_spec q now task _ (PyFloat F64.zero) false false).
  - apply metrics_lookup.
  - rewrite Ha. reflexivity.
  - rewrite Hh. reflexivity.
Qed.


End Pipeline.

Lemma C9_witness :
  exists m : dict,
    @calculate_final_confidence ascii_lower task_no_score = Ok m /\
    m !! "llm_confidence" = Some (PyFloat F64.zero) /\
    m !! "final_confidence" = Some (PyFloat F64.zero) /\
    routes_to (TaskReviewQueue.route_task timestamp_sample task_no_score m queue_sample)
      queue_sample "high_priority_review" "needs_urgent_review".
Proof.
  apply (@C9_missing_score_routed_urgent ascii_lower task_no_score
           "Update the client database" timestamp_sample queue_sample).
  - vm_compute. reflexivity.
  - left. vm_compute. reflexivity.
  - split; reflexivity.
Defined.



(** The three sample tasks end in three different lanes. *)
Example pipeline_summary :
  summary_entries (@process_email ascii_lower world_sample "Hi team" None None) =
    [Some (PyInt 3); Some (PyInt 1); Some (PyInt 1); Some (PyInt 1)].
Proof. vm_compute. reflexivity. Qed.

(** A task that is not well typed makes the whole batch raise: nothing is
    returned for the tasks before it either.  Without an API key nothing
    is extracted at all. *)
Example pipeline_raises :
  @process_email ascii_lower
    {| getenv_api_key := Some "sk-sample";
       extracted := fun _ _ =>
         <["tasks" := PyList [PyDict task_clear; PyNone]]> extraction_ok;
       clock := clock_sample |}
    "Hi team" None None = Raise AttributeError /\
  @process_email ascii_lower
    {| getenv_api_key := None;
       extracted := fun _ _ => extraction_ok;
       clock := clock_sample |}
    "Hi team" None (Some "") = Raise ValueError.
Proof. split; vm_compute; reflexivity. Qed.

(** * More properties of the program *)

(** ** Order of floats *)

Lemma compare_None_sym (x y : F64.t) :
  F64.compare x y = None -> F64.compare y x = None.
Proof.
  unfold F64.compare.
  destruct x as [sx|sx| |sx mx ex], y as [sy|sy| |sy my ey]; simpl;
    try reflexivity; try discriminate;
    try (destruct sx); try (destruct sy); discriminate.
Qed.

(** [x >= t] is [t <= x]. *)
Lemma ge_is_leb (x t : F64.t) :
  match F64.compare x t with Some (Gt | Eq) => true | _ => false end = F64.leb t x.
Proof.
  unfold F64.leb, SFleb.
  destruct (F64.compare x t) as [c|] eqn:Hc.
  - apply compare_antisym in Hc. unfold F64.compare in Hc. rewrite Hc.
    destruct c; reflexivity.
  - apply compare_None_sym in Hc. unfold F64.compare in Hc. rewrite Hc. reflexivity.
Qed.

Lemma leb_trans (x y z : F64.t) :
  F64.leb x y = true -> F64.leb y z = true -> F64.leb x z = true.
Proof.
  unfold F64.leb, SFleb.
  destruct x as [sx|sx| |sx mx ex], y as [sy|sy| |sy my ey], z as [sz|sz| |sz mz ez];
    cbn [SFcompare]; try discriminate; try reflexivity;
    try (destruct sx); try (destruct sy); try (destruct sz);
    try discriminate; try reflexivity.
  all: rewrite ?Pos.compare_cont_spec; cbn [Pos.switch_Eq].
  all: destruct (Z.compare_spec ex ey); try discriminate;
       destruct (Z.compare_spec ey ez); try discriminate;
       destruct (Z.compare_spec ex ez); try reflexivity; try lia.
  all: try (destruct (Pos.compare_spec mx my); try discriminate;
            destruct (Pos.compare_spec my mz); try discriminate;
            destruct (Pos.compare_spec mx mz); try reflexivity; try discriminate;
            intros _ _; lia).
  all: try (destruct (Pos.compare_spec mx my); try discriminate;
            destruct (Pos.compare_spec mx mz); try reflexivity; try discriminate;
            intros _ _; lia).
  all: try (destruct (Pos.compare_spec my mz); try discriminate;
            destruct (Pos.compare_spec mx mz); try reflexivity; try discriminate;
            intros _ _; lia).
Qed.

(** ** Substrings *)

Lemma append_cons (c : ascii) (s t : string) :
  String c s ++ t = String c (s ++ t).
Proof. reflexivity. Qed.

Lemma append_nil (t : string) : "" ++ t = t.
Proof. reflexivity. Qed.

Lemma prefix_iff (needle hay : string) :
  String.prefix needle hay = true <-> exists post, hay = needle ++ post.
Proof.
  revert hay. induction needle as [| c needle IH]; intros hay.
  - split; [intros _; exists hay; reflexivity | intros _; destruct hay; reflexivity].
  - destruct hay as [| c' hay]; cbn [String.prefix].
    + split; [discriminate | intros [post Hpost]; rewrite append_cons in Hpost;
                             discriminate Hpost].
    + destruct (Ascii.ascii_dec c c') as [-> | Hne].
      * rewrite IH. split; intros [post Hpost]; exists post;
          rewrite append_cons in *; congruence.
      * split; [discriminate | intros [post Hpost]; rewrite append_cons in Hpost;
                               congruence].
Qed.

(** [needle in hay] holds exactly when [hay] is [needle] between a prefix
    and a suffix. *)
Lemma str_in_iff (needle hay : string) :
  str_in needle hay = true <-> exists pre post, hay = pre ++ needle ++ post.
Proof.
  induction hay as [| c hay IH]; cbn [str_in].
  - rewrite orb_false_r, prefix_iff. split.
    + intros [post Hpost]. exists "", post. exact Hpost.
    + intros (pre & post & Heq). destruct pre as [| c pre];
        [| rewrite append_cons in Heq; discriminate Heq].
      exists post. exact Heq.
  - rewrite orb_true_iff, prefix_iff, IH. split.
    + intros [[post Hpost] | (pre & post & Heq)].
      * exists "", post. exact Hpost.
      * exists (String c pre), post. rewrite append_cons. congruence.
    + intros (pre & post & Heq). destruct pre as [| c' pre].
      * left. exists post. exact Heq.
      * right. exists pre, post. rewrite append_cons in Heq. congruence.
Qed.

(** ** More on the confidence calculator *)

Section ScoringMore.

Context `{StrLower}.

Lemma calculate_description_error (task : dict) (v : pyval) :
  task !! "task_description" = Some v ->
  (forall s, v <> PyStr s) ->
  calculate_final_confidence task = Raise AttributeError.
Proof.
  intros Hv Hns. unfold calculate_final_confidence.
  rewrite (dict_get_Some _ "task_description" _ _ Hv).
  destruct v as [| | | |s| |]; try (exfalso; exact (Hns s eq_refl));
    cbn [py_lower]; step;
    destruct (negb _), (py_eq_str _ _); reflexivity.
Qed.

Lemma calculate_score_error (task : dict) (s : string) (e : pyexn) :
  description_text task s ->
  py_as_float (score task) = Raise e ->
  calculate_final_confidence task = Raise e.
Proof.
  intros Hs He. unfold calculate_final_confidence.
  assert (Hd : dict_get task "task_description" (PyStr "") = PyStr s).
  { unfold dict_get. destruct Hs as [-> | [-> ->]]; reflexivity. }
  rewrite Hd. fold (score task). unfold py_sub_float. rewrite He.
  cbn [py_lower]. step.
  destruct (negb _), (py_eq_str _ _), (existsb _ _); reflexivity.
Qed.

(** X1. The exceptions of the calculator.  A description that is not text
    raises [AttributeError], whatever the score; with a text description,
    a score that is not a number raises [TypeError] and an integer score
    beyond the floats raises [OverflowError]; every other record is
    scored. *)
Theorem calculate_exceptions (task : dict) :
  (forall v, task !! "task_description" = Some v -> (forall s, v <> PyStr s) ->
     calculate_final_confidence task = Raise AttributeError) /\
  (forall s v, description_text task s ->
     task !! "confidence_score" = Some v -> not_a_number v ->
     calculate_final_confidence task = Raise TypeError) /\
  (forall s z, description_text task s ->
     task !! "confidence_score" = Some (PyInt z) ->
     int_to_float z = Raise OverflowError ->
     calculate_final_confidence task = Raise OverflowError) /\
  (returns (calculate_final_confidence task) <-> task_well_typed task).
Proof.
  split; [| split; [| split]].
  - intros v Hv Hns. exact (calculate_description_error task v Hv Hns).
  - intros s v Hs Hv Hnn. apply (calculate_score_error task s _ Hs).
    unfold score. rewrite (dict_get_Some _ _ _ _ Hv).
    destruct v; try (exfalso; exact Hnn); reflexivity.
  - intros s z Hs Hv Hz. apply (calculate_score_error task s _ Hs).
    unfold score. rewrite (dict_get_Some _ _ _ _ Hv). exact Hz.
  - apply calculate_returns_iff.
Qed.

Lemma adjustment_list_facts (d a v : bool) :
  let adj := adjustment_list d a v in
  let pen := penalty_total d a v in
  (length adj <= 3)%nat /\
  List.NoDup adj /\
  named_penalties adj = pen /\
  (adj = [] <-> pen = F64.zero) /\
  F64.leb F64.zero pen = true /\
  F64.ltb pen (F64.decimal 45 2) = true.
Proof.
  destruct d, a, v; cbn [adjustment_list app];
    (split; [cbn; lia|]);
    (split; [repeat (apply List.NoDup_cons; [cbn; intuition discriminate|]);
             apply List.NoDup_nil|]);
    (split; [vm_compute; reflexivity|]);
    (split; [split; intros Heq; (discriminate Heq || reflexivity)|]);
    split; vm_compute; reflexivity.
Qed.

(** X2. The adjustments account for the penalties: on every record the
    calculator accepts, [rule_penalties] is the float sum, in order, of the
    penalties the recorded adjustments name; there are at most three
    adjustments, no two alike; the penalties are [0.0] exactly when none
    was recorded, and always below [0.45]. *)
Theorem adjustments_account_for_penalties (task : dict) :
  task_well_typed task ->
  exists (m : dict) (pen : F64.t) (adj : list pyval),
    calculate_final_confidence task = Ok m /\
    m !! "rule_penalties" = Some (PyFloat pen) /\
    m !! "adjustments" = Some (PyList adj) /\
    named_penalties adj = pen /\
    (length adj <= 3)%nat /\
    List.NoDup adj /\
    (adj = [] <-> pen = F64.zero) /\
    F64.leb F64.zero pen = true /\
    F64.ltb pen (F64.decimal 45 2) = true.
Proof.
  intros [Hnum [s Hs]].
  apply numeric_as_float in Hnum as [f Hf].
  pose proof (calculate_unfold task s f Hs Hf) as Hcalc. cbv zeta in Hcalc.
  destruct (adjustment_list_facts (deadline_rule task) (assignee_rule task)
              (vague_rule s)) as (Hlen & Hnd & Hsum & Hnil & Hlo & Hhi).
  eexists _, _, _. split; [exact Hcalc|].
  split; [apply metrics_lookup|]. split; [apply metrics_lookup|].
  repeat split; try assumption; apply Hnil.
Qed.

Lemma leb_not_nan (x y : F64.t) : F64.leb x y = true -> F64.is_nan y = false.
Proof.
  unfold F64.leb, SFleb. destruct y; try reflexivity.
  destruct x; discriminate.
Qed.

(** Below a threshold is the contrary of at-or-above it, for a number. *)
Lemma ltb_negb_ge (x t : F64.t) :
  F64.is_nan x = false -> F64.is_nan t = false ->
  F64.ltb x t = negb (match F64.compare x t with Some (Gt | Eq) => true | _ => false end).
Proof.
  intros Hx Ht. destruct (compare_is_Some x t Hx Ht) as [c Hc].
  unfold F64.ltb, SFltb. unfold F64.compare in *. rewrite Hc. destruct c; reflexivity.
Qed.

(** X3. The [needs_review] flag agrees with the router: with the default
    thresholds a scored task is routed to [auto_approved] exactly when its
    metrics say [needs_review = False]. *)
Theorem needs_review_matches_default_routing (task : dict) (now : string)
    (q : TaskReviewQueue.t) :
  task_well_typed task ->
  default_thresholds q ->
  exists (m : dict) (needs_review : bool) (lane status : string),
    calculate_final_confidence task = Ok m /\
    m !! "needs_review" = Some (PyBool needs_review) /\
    routes_to (TaskReviewQueue.route_task now task m q) q lane status /\
    (needs_review = false <-> lane = "auto_approved").
Proof.
  intros [Hnum [s Hs]] [Ha Hh].
  apply numeric_as_float in Hnum as [f Hf].
  pose proof (calculate_unfold task s f Hs Hf) as Hcalc. cbv zeta in Hcalc.
  set (pen := penalty_total _ _ _) in Hcalc.
  set (fc := py_max _ _) in Hcalc.
  set (adj := adjustment_list _ _ _) in Hcalc.
  destruct (metrics_lookup (score task) pen fc adj) as (_ & _ & Hfc & _ & Hnr).
  assert (Hnan : F64.is_nan fc = false).
  { apply (leb_not_nan F64.zero). apply clamp_bounds. }
  destruct (py_ge_float_comparable (PyFloat fc) (TaskReviewQueue.high_priority_threshold q) I)
    as [b2 H2].
  pose proof (route_task_spec q now task _ (PyFloat fc) _ b2 Hfc eq_refl H2) as Hroute.
  eexists _, _, _, _. split; [exact Hcalc|]. split; [exact Hnr|].
  split; [exact Hroute|].
  rewrite (ltb_negb_ge fc F64.lit_0_7 Hnan eq_refl), Ha.
  cbn [py_compare_float]. unfold band_lane.
  destruct (match F64.compare fc F64.lit_0_7 with Some (Gt | Eq) => true | _ => false end);
    cbn [negb]; [| destruct b2]; split; intros Heq;
    (reflexivity || discriminate Heq).
Qed.

(** X4. The calculator reads four fields and nothing else: two records that
    agree on [confidence_score], [deadline], [assignee] and
    [task_description] get the same outcome, metrics or exception. *)
Theorem calculate_reads_four_fields (t1 t2 : dict) :
  same_scored_fields t1 t2 ->
  calculate_final_confidence t1 = calculate_final_confidence t2.
Proof.
  intros (Hc & Hd & Ha & Ht).
  unfold calculate_final_confidence, dict_get.
  rewrite Hc, Hd, Ha, Ht. reflexivity.
Qed.

Lemma vague_rule_iff (s : string) :
  vague_rule s = true <->
  exists word pre post, In word hedge_words /\ str_lower s = pre ++ word ++ post.
Proof.
  unfold vague_rule. rewrite existsb_exists. split.
  - intros (word & Hin & Hstr). apply str_in_iff in Hstr as (pre & post & Heq).
    exists word, pre, post. split; assumption.
  - intros (word & pre & post & Hin & Heq). exists word. split; [exact Hin|].
    apply str_in_iff. exists pre, post. exact Heq.
Qed.

(** X5. The vague-language rule is a substring test: the adjustment
    ["Vague language detected (-0.10)"] is recorded exactly when a hedge
    word occurs somewhere in the lower-cased description, inside a longer
    word or not; it is then the last adjustment, recorded once. *)
Theorem vague_rule_is_substring_test (task : dict) (s : string) :
  numeric (score task) ->
  description_text task s ->
  exists (m : dict) (adj : list pyval),
    calculate_final_confidence task = Ok m /\
    m !! "adjustments" = Some (PyList adj) /\
    (In (PyStr "Vague language detected (-0.10)") adj <->
     exists word pre post,
       In word hedge_words /\ str_lower s = pre ++ word ++ post) /\
    (In (PyStr "Vague language detected (-0.10)") adj ->
     exists before,
       adj = (before ++ [PyStr "Vague language detected (-0.10)"])%list /\
       ~ In (PyStr "Vague language detected (-0.10)") before).
Proof.
  intros Hnum Hs.
  apply numeric_as_float in Hnum as [f Hf].
  pose proof (calculate_unfold task s f Hs Hf) as Hcalc. cbv zeta in Hcalc.
  eexists _, _. split; [exact Hcalc|]. split; [apply metrics_lookup|].
  rewrite <- vague_rule_iff.
  destruct (deadline_rule task), (assignee_rule task), (vague_rule s);
    cbn [adjustment_list app In]; split;
    try (split; [intros Hin; first [reflexivity | decompose [or] Hin; discriminate || contradiction]
                | intros Heq; first [discriminate Heq | tauto]]);
    intros Hin;
    first [ exfalso; decompose [or] Hin; discriminate || contradiction
          | eexists; split;
            [ first [ instantiate (1 := [_; _]); reflexivity
                    | instantiate (1 := [_]); reflexivity
                    | instantiate (1 := []); reflexivity ]
            | cbn; intuition discriminate ] ].
Qed.

End ScoringMore.

(** ** More on the review queue *)

(** What a returning [route_task] call tells about its arguments. *)
Lemma route_task_inv (q q' : TaskReviewQueue.t) (now : string)
    (task confidence_metrics rt : dict) :
  TaskReviewQueue.route_task now task confidence_metrics q = Ok (rt, q') ->
  exists (v : pyval) (above_auto above_high : bool),
    confidence_metrics !! "final_confidence" = Some v /\
    comparable v /\
    py_ge_float v (TaskReviewQueue.auto_approve_threshold q) = Ok above_auto /\
    py_ge_float v (TaskReviewQueue.high_priority_threshold q) = Ok above_high.
Proof.
  unfold TaskReviewQueue.route_task, dict_getitem.
  destruct (confidence_metrics !! "final_confidence") as [v|]; step; [| discriminate].
  intros Hr. assert (Hc : comparable v).
  { destruct v; try exact I; discriminate Hr. }
  destruct (py_ge_float_comparable v (TaskReviewQueue.auto_approve_threshold q) Hc)
    as [b1 H1].
  destruct (py_ge_float_comparable v (TaskReviewQueue.high_priority_threshold q) Hc)
    as [b2 H2].
  exists v, b1, b2. repeat split; assumption.
Qed.

(** X6. The exceptions of [route_task]: [KeyError] exactly when the metrics
    have no [final_confidence], [TypeError] when it is there and is not a
    number; every other call returns. *)
Theorem route_task_exceptions (q : TaskReviewQueue.t) (now : string)
    (task confidence_metrics : dict) :
  let r := TaskReviewQueue.route_task now task confidence_metrics q in
  (r = Raise KeyError <-> confidence_metrics !! "final_confidence" = None) /\
  (r = Raise TypeError <->
   exists v, confidence_metrics !! "final_confidence" = Some v /\ ~ comparable v) /\
  (returns r <->
   exists v, confidence_metrics !! "final_confidence" = Some v /\ comparable v).
Proof.
  intros r. subst r.
  destruct (confidence_metrics !! "final_confidence") as [v|] eqn:Hv.
  - assert (Hcases : comparable v \/ ~ comparable v).
    { destruct v; cbn; tauto. }
    destruct Hcases as [Hc | Hnc].
    + destruct (route_task_returns q now task confidence_metrics v Hv Hc)
        as (b1 & b2 & rt & q' & Hr & _).
      rewrite Hr. split; [| split].
      * split; discriminate.
      * split; [discriminate | intros (v' & [= <-] & Hnc); contradiction].
      * split; [intros _; exists v; split; [reflexivity | exact Hc]
               | intros _; eexists; reflexivity].
    + assert (Hr : TaskReviewQueue.route_task now task confidence_metrics q
                   = Raise TypeError).
      { unfold TaskReviewQueue.route_task, dict_getitem. rewrite Hv. step.
        destruct v; try reflexivity; exfalso; apply Hnc; exact I. }
      rewrite Hr. split; [| split].
      * split; discriminate.
      * split; [intros _; exists v; split; [reflexivity | exact Hnc] | reflexivity].
      * split; [intros [? [=]] | intros (v' & [= <-] & Hc); contradiction].
  - assert (Hr : TaskReviewQueue.route_task now task confidence_metrics q
                 = Raise KeyError).
    { unfold TaskReviewQueue.route_task, dict_getitem. rewrite Hv. reflexivity. }
    rewrite Hr. split; [| split].
    + split; reflexivity.
    + split; [discriminate | intros (v & [=] & _)].
    + split; [intros [? [=]] | intros (v & [=] & _)].
Qed.

(** X7. A routed task is the task with four keys set: every other field is
    the task's, [confidence_metrics] holds the metrics passed,
    [routed_at] the time of the call, and [queue] and [review_status] one
    of the three pairs; earlier values of the four keys are overwritten. *)
Theorem route_task_keeps_task_fields (q q' : TaskReviewQueue.t) (now : string)
    (task confidence_metrics rt : dict) :
  TaskReviewQueue.route_task now task confidence_metrics q = Ok (rt, q') ->
  rt !! "confidence_metrics" = Some (PyDict confidence_metrics) /\
  rt !! "routed_at" = Some (PyStr now) /\
  (exists lane status,
     In (lane, status) lane_status_pairs /\
     rt !! "queue" = Some (PyStr lane) /\
     rt !! "review_status" = Some (PyStr status)) /\
  (forall key, ~ In key routing_keys -> rt !! key = task !! key).
Proof.
  unfold TaskReviewQueue.route_task, dict_getitem.
  destruct (confidence_metrics !! "final_confidence") as [v|]; step; [| discriminate].
  destruct (py_ge_float v (TaskReviewQueue.auto_approve_threshold q)) as [[] |];
    step;
    [| destruct (py_ge_float v (TaskReviewQueue.high_priority_threshold q))
         as [[] |]; step |];
    try discriminate; intros [= <- _];
    (split; [lookup|]); (split; [lookup|]);
    (split; [eexists _, _; split; [| split; lookup]; cbn; tauto|]);
    intros key Hkey; unfold routing_keys in Hkey; cbn [In] in Hkey;
    rewrite !lookup_insert_ne by (intros <-; tauto); reflexivity.
Qed.

Lemma py_ge_float_leb (x t : F64.t) : py_ge_float (PyFloat x) t = Ok (F64.leb t x).
Proof.
  unfold py_ge_float. cbn [py_compare_float]. step. rewrite ge_is_leb. reflexivity.
Qed.

(** A [route_task] call with a float confidence, by the two [<=] tests. *)
Lemma route_task_float (q : TaskReviewQueue.t) (now : string)
    (task confidence_metrics : dict) (x : F64.t) :
  confidence_metrics !! "final_confidence" = Some (PyFloat x) ->
  routes_to (TaskReviewQueue.route_task now task confidence_metrics q) q
    (band_lane (F64.leb (TaskReviewQueue.auto_approve_threshold q) x)
               (F64.leb (TaskReviewQueue.high_priority_threshold q) x))
    (band_status (F64.leb (TaskReviewQueue.auto_approve_threshold q) x)
                 (F64.leb (TaskReviewQueue.high_priority_threshold q) x)).
Proof.
  intros Hx.
  apply (route_task_spec q now task confidence_metrics (PyFloat x) _ _ Hx);
    apply py_ge_float_leb.
Qed.

(** X8. Routing is monotone in the confidence, whatever the thresholds: of two
    float confidences routed on the same queue, the larger one never gets
    the lane of lower trust. *)
Theorem route_task_monotone (q : TaskReviewQueue.t) (now1 now2 : string)
    (task1 task2 metrics1 metrics2 : dict) (x y : F64.t) :
  metrics1 !! "final_confidence" = Some (PyFloat x) ->
  metrics2 !! "final_confidence" = Some (PyFloat y) ->
  F64.leb x y = true ->
  exists lane1 status1 lane2 status2,
    routes_to (TaskReviewQueue.route_task now1 task1 metrics1 q) q lane1 status1 /\
    routes_to (TaskReviewQueue.route_task now2 task2 metrics2 q) q lane2 status2 /\
    (lane_rank lane1 <= lane_rank lane2)%nat.
Proof.
  intros Hx Hy Hxy.
  eexists _, _, _, _. split; [exact (route_task_float q now1 task1 metrics1 x Hx)|].
  split; [exact (route_task_float q now2 task2 metrics2 y Hy)|].
  destruct (F64.leb (TaskReviewQueue.auto_approve_threshold q) x) eqn:Hax.
  - rewrite (leb_trans _ _ _ Hax Hxy). cbn. lia.
  - destruct (F64.leb (TaskReviewQueue.high_priority_threshold q) x) eqn:Hhx.
    + rewrite (leb_trans _ _ _ Hhx Hxy).
      destruct (F64.leb (TaskReviewQueue.auto_approve_threshold q) y); cbn; lia.
    + cbn. lia.
Qed.

(** X9. With thresholds in the wrong order ([auto_approve_threshold] at or
    below [high_priority_threshold]) no float confidence is ever routed to
    [standard_review]: a task is auto-approved or sent to urgent review. *)
Theorem inverted_thresholds_skip_standard_review (q : TaskReviewQueue.t)
    (now : string) (task confidence_metrics : dict) (x : F64.t) :
  F64.leb (TaskReviewQueue.auto_approve_threshold q)
          (TaskReviewQueue.high_priority_threshold q) = true ->
  confidence_metrics !! "final_confidence" = Some (PyFloat x) ->
  let r := TaskReviewQueue.route_task now task confidence_metrics q in
  (routes_to r q "auto_approved" "auto_approved" \/
   routes_to r q "high_priority_review" "needs_urgent_review") /\
  (forall rt q', r = Ok (rt, q') ->
     TaskReviewQueue.standard_review q' = TaskReviewQueue.standard_review q).
Proof.
  intros Hah Hx r. subst r.
  pose proof (route_task_float q now task confidence_metrics x Hx) as Hroute.
  destruct (F64.leb (TaskReviewQueue.auto_approve_threshold q) x) eqn:Hax.
  - split; [left; exact Hroute|].
    intros rt q' Hr. destruct Hroute as (rt0 & q0 & Hr0 & _ & _ & _ & Hother & _).
    rewrite Hr0 in Hr. injection Hr as -> ->.
    apply (Hother "standard_review"). discriminate.
  - destruct (F64.leb (TaskReviewQueue.high_priority_threshold q) x) eqn:Hhx.
    + rewrite (leb_trans _ _ _ Hah Hhx) in Hax. discriminate Hax.
    + split; [right; exact Hroute|].
      intros rt q' Hr. destruct Hroute as (rt0 & q0 & Hr0 & _ & _ & _ & Hother & _).
      rewrite Hr0 in Hr. injection Hr as -> ->.
      apply (Hother "standard_review"). discriminate.
Qed.

(** A sequence of calls, when it returns: every call was well typed, one
    routed task came back per call, each lane kept its earlier contents
    in front of what was added, and the thresholds are the same. *)
Lemma route_tasks_inv (calls : list TaskReviewQueue.call) :
  forall (q q' : TaskReviewQueue.t) (routed : list dict),
    TaskReviewQueue.route_tasks calls q = Ok (routed, q') ->
    Forall call_well_typed calls /\
    length routed = length calls /\
    (forall l, lane_contents q' l =
               (lane_contents q l ++ List.filter (in_lane l) routed)%list) /\
    TaskReviewQueue.auto_approve_threshold q' = TaskReviewQueue.auto_approve_threshold q /\
    TaskReviewQueue.high_priority_threshold q' = TaskReviewQueue.high_priority_threshold q.
Proof.
  induction calls as [| c calls IH]; intros q q' routed.
  - cbn [TaskReviewQueue.route_tasks]. intros [= <- <-].
    repeat split; [constructor |]. intros l. cbn. rewrite app_nil_r. reflexivity.
  - cbn [TaskReviewQueue.route_tasks].
    destruct (TaskReviewQueue.route_task _ _ _ q) as [[rt q1] |] eqn:Hr; step;
      [| discriminate].
    destruct (TaskReviewQueue.route_tasks calls q1) as [[more q2] |] eqn:Hmore; step;
      [| discriminate].
    intros [= <- <-].
    destruct (route_task_inv _ _ _ _ _ _ Hr) as (v & b1 & b2 & Hv & Hc & H1 & H2).
    pose proof (route_task_spec q (TaskReviewQueue.call_now c)
                  (TaskReviewQueue.call_task c) _ v b1 b2 Hv H1 H2) as Hroutes.
    pose proof (routes_to_lanes _ q q1 rt _ _ Hroutes Hr) as Hlanes.
    destruct Hroutes as (rt0 & q0 & Hr0 & _ & _ & _ & _ & Hta & Hth).
    rewrite Hr in Hr0. injection Hr0 as <- <-.
    destruct (IH _ _ _ Hmore) as (Htyped & Hlen & Hl & Ha & Hh).
    split; [constructor; [exists v; split; assumption | exact Htyped]|].
    split; [cbn [length]; lia|].
    split; [| split; congruence].
    intros l. rewrite Hl, Hlanes, <- List.app_assoc. f_equal.
    cbn [List.filter]. destruct (in_lane l rt); reflexivity.
Qed.

(** X10. A sequence of [route_task] calls on any queue is all or nothing: it
    returns exactly when every call passes a numeric [final_confidence];
    then it returns one routed task per call, every lane keeps what it
    held in front of the tasks added, and the thresholds do not change. *)
Theorem route_tasks_all_or_nothing (calls : list TaskReviewQueue.call)
    (q : TaskReviewQueue.t) :
  (returns (TaskReviewQueue.route_tasks calls q) <-> Forall call_well_typed calls) /\
  (forall routed q',
     TaskReviewQueue.route_tasks calls q = Ok (routed, q') ->
     length routed = length calls /\
     (forall l, exists added,
        lane_contents q' l = (lane_contents q l ++ added)%list) /\
     queue_size q' = (queue_size q + length calls)%nat /\
     TaskReviewQueue.auto_approve_threshold q' = TaskReviewQueue.auto_approve_threshold q /\
     TaskReviewQueue.high_priority_threshold q' = TaskReviewQueue.high_priority_threshold q).
Proof.
  split.
  - split.
    + intros [[routed q'] Hr]. apply (route_tasks_inv calls q q' routed Hr).
    + intros Htyped. destruct (route_tasks_spec calls Htyped q) as (routed & q' & Hr & _).
      exists (routed, q'). exact Hr.
  - intros routed q' Hr.
    destruct (route_tasks_inv calls q q' routed Hr) as (Htyped & Hlen & Hl & Ha & Hh).
    destruct (route_tasks_spec calls Htyped q) as (routed' & q'' & Hr' & _ & _ & Hsize).
    rewrite Hr in Hr'. injection Hr' as <- <-.
    split; [exact Hlen|]. split; [| split; [exact Hsize | split; assumption]].
    intros l. eexists. apply Hl.
Qed.

(** ** More on the pipeline *)

Section PipelineMore.

Context `{StrLower}.

(** What a returning loop tells: every task was a well-typed record, and
    each routed task went to the lane it names. *)
Lemma process_email_loop_inv (w : world) (tasks : list pyval) :
  forall (i : nat) (processed out : list dict) (q q' : TaskReviewQueue.t),
    process_email_loop w i tasks processed q = Ok (out, q') ->
    exists (typed routed : list dict),
      tasks = PyDict <$> typed /\
      Forall task_well_typed typed /\
      out = (processed ++ routed)%list /\
      length routed = length tasks /\
      (forall l, lane_contents q' l
                 = (lane_contents q l ++ List.filter (in_lane l) routed)%list) /\
      queue_size q' = (queue_size q + length routed)%nat.
Proof.
  induction tasks as [| task tasks IH]; intros i processed out q q'.
  - cbn [process_email_loop]. intros [= <- <-]. exists [], [].
    rewrite app_nil_r. repeat split; try reflexivity.
    + constructor.
    + intros l. cbn [List.filter]. rewrite app_nil_r. reflexivity.
    + cbn [length]. lia.
  - cbn [process_email_loop].
    destruct (as_dict task) as [d |] eqn:Hd; step; [| discriminate].
    destruct (calculate_final_confidence d) as [m |] eqn:Hm; step; [| discriminate].
    destruct (TaskReviewQueue.route_task (clock w i) d m q) as [[rt q1] |] eqn:Hr;
      step; [| discriminate].
    intros Hloop.
    destruct (IH _ _ _ _ _ Hloop) as (typed & routed & -> & Htyped & -> & Hlen & Hlanes & Hsize).
    destruct (route_task_inv q q1 (clock w i) d m rt Hr) as (v & b1 & b2 & Hv & _ & H1 & H2).
    pose proof (route_task_spec q (clock w i) d m v b1 b2 Hv H1 H2) as Hroutes.
    exists (d :: typed), (rt :: routed).
    split.
    { destruct task; try discriminate Hd. injection Hd as ->. reflexivity. }
    split.
    { constructor; [| exact Htyped]. apply calculate_returns_iff. exists m. exact Hm. }
    split.
    { unfold append. rewrite <- List.app_assoc. reflexivity. }
    split.
    { cbn [length]. rewrite length_fmap in *. lia. }
    split.
    { intros l. rewrite Hlanes.
      rewrite (routes_to_lanes _ q q1 rt _ _ Hroutes Hr l).
      change (rt :: routed) with ([rt] ++ routed)%list.
      rewrite List.filter_app, List.app_assoc. reflexivity. }
    rewrite Hsize, (routes_to_size _ q q1 rt b1 b2 Hroutes Hr). cbn [length]. lia.
Qed.

(** The constructor of the extractor returns exactly with a usable key. *)
Lemma init_returns_iff (w : world) (api_key : option string) :
  returns (TaskExtractor.__init__ w api_key)
  <-> usable_key (TaskExtractor.str_or api_key (getenv_api_key w)).
Proof.
  unfold TaskExtractor.__init__, usable_key.
  destruct (TaskExtractor.str_or api_key (getenv_api_key w)) as [k |].
  - destruct (String.eqb_spec k "") as [-> | Hne].
    + split; [intros [? [=]] | intros (k & [= <-] & Hk); contradiction].
    + split; [intros _; exists k; split; [reflexivity | exact Hne]
             | intros _; eexists; reflexivity].
  - split; [intros [? [=]] | intros (k & [=] & _)].
Qed.

Lemma init_raises (w : world) (api_key : option string) :
  ~ returns (TaskExtractor.__init__ w api_key) ->
  TaskExtractor.__init__ w api_key = Raise ValueError.
Proof.
  unfold TaskExtractor.__init__.
  destruct (TaskExtractor.str_or api_key (getenv_api_key w)) as [k |];
    [destruct (String.eqb k "") |]; try reflexivity.
  intros Hn. exfalso. apply Hn. eexists. reflexivity.
Qed.

(** A batch of well-typed tasks is processed with success. *)
Lemma process_email_success (w : world) (email_content : string)
    (sender api_key : option string) (tasks : list dict) :
  returns (TaskExtractor.__init__ w api_key) ->
  py_truthy (dict_get (extracted w email_content sender) "error" PyNone) = false ->
  py_iter (dict_get (extracted w email_content sender) "tasks" (PyList []))
  = Ok (PyDict <$> tasks) ->
  Forall task_well_typed tasks ->
  exists r : dict,
    process_email w email_content sender api_key = Ok r /\
    r !! "success" = Some (PyBool true).
Proof.
  intros [extractor Hinit] Herr Htasks Htyped.
  unfold process_email, TaskExtractor.extract_tasks. rewrite Hinit.
  cbn [TaskReviewQueue.__init__ mbind result_bind]. cbv zeta.
  rewrite Herr, Htasks. step.
  match goal with
  | |- context [process_email_loop w 0 _ [] ?q0] =>
      destruct (process_email_loop_spec w tasks Htyped 0%nat [] q0)
        as (routed & q' & Hloop & _)
  end.
  rewrite Hloop. step.
  cbn [TaskReviewQueue.get_summary TaskReviewQueue.get_review_tasks]. step.
  eexists. split; [reflexivity | lookup].
Qed.

(** X11. [process_email] returns exactly when a usable API key is at hand and
    the extraction result can be processed: an error whose message can be
    read, or tasks that are all well-typed records. *)
Theorem process_email_returns_iff (w : world) (email_content : string)
    (sender api_key : option string) :
  returns (process_email w email_content sender api_key)
  <-> usable_key (TaskExtractor.str_or api_key (getenv_api_key w))
      /\ processable (extracted w email_content sender).
Proof.
  rewrite <- init_returns_iff.
  unfold process_email, TaskExtractor.extract_tasks, processable.
  destruct (TaskExtractor.__init__ w api_key) as [extractor |] eqn:Hinit.
  2:{ step. split; [intros [? [=]] | intros [[? [=]] _]]. }
  cbn [TaskReviewQueue.__init__ mbind result_bind]. cbv zeta.
  set (extraction_result := extracted w email_content sender).
  destruct (py_truthy (dict_get extraction_result "error" PyNone)).
  - destruct (py_getitem_0 _) as [msg |]; step.
    + split; [intros _; split; eexists; reflexivity | intros _; eexists; reflexivity].
    + split; [intros [? [=]] | intros [_ [? [=]]]].
  - destruct (py_iter _) as [tasks |]; step.
    2:{ split; [intros [? [=]] | intros [_ (? & [=] & _)]]. }
    split.
    + intros [r Hr]. split; [eexists; reflexivity|].
      revert Hr.
      destruct (process_email_loop w 0 tasks [] _) as [[out q'] |] eqn:Hloop;
        step; [| discriminate].
      intros _.
      destruct (process_email_loop_inv w tasks _ _ _ _ _ Hloop)
        as (typed & routed & -> & Htyped & _).
      exists typed. split; [reflexivity | exact Htyped].
    + intros [_ (typed & [= ->] & Htyped)].
      match goal with
      | |- context [process_email_loop w 0 _ [] ?q0] =>
          destruct (process_email_loop_spec w typed Htyped 0%nat [] q0)
            as (routed & q' & Hloop & _)
      end.
      rewrite Hloop. step.
      cbn [TaskReviewQueue.get_summary TaskReviewQueue.get_review_tasks]. step.
      eexists. reflexivity.
Qed.

(** The loop reads nothing of the world but its clock. *)
Lemma process_email_loop_clock (w w' : world) (tasks : list pyval) :
  (forall i, clock w' i = clock w i) ->
  forall (i : nat) (processed : list dict) (q : TaskReviewQueue.t),
    process_email_loop w' i tasks processed q = process_email_loop w i tasks processed q.
Proof.
  intros Hclock. induction tasks as [| task tasks IH]; intros i processed q.
  - reflexivity.
  - cbn [process_email_loop]. rewrite Hclock.
    destruct (as_dict task) as [d |]; step; [| reflexivity].
    destruct (calculate_final_confidence d) as [m |]; step; [| reflexivity].
    destruct (TaskReviewQueue.route_task (clock w i) d m q) as [[rt q1] |];
      step; [| reflexivity].
    apply IH.
Qed.

(** X12. Without a usable API key, neither passed nor in the environment,
    [process_email] raises [ValueError] whatever the email and the
    extractor; a non-empty key passed as argument makes the key of the
    environment irrelevant. *)
Theorem process_email_needs_api_key (w : world) (email_content : string)
    (sender api_key : option string) :
  (~ usable_key (TaskExtractor.str_or api_key (getenv_api_key w)) ->
   process_email w email_content sender api_key = Raise ValueError) /\
  (usable_key api_key ->
   forall key : option string,
     process_email (with_environment_key w key) email_content sender api_key
     = process_email w email_content sender api_key).
Proof.
  split.
  - intros Hn. unfold process_email.
    rewrite init_raises; [reflexivity|].
    rewrite init_returns_iff. exact Hn.
  - intros (k & -> & Hk) key.
    assert (Hinit : forall w', TaskExtractor.__init__ w' (Some k)
                               = Ok {| TaskExtractor.api_key := k |}).
    { intros w'. unfold TaskExtractor.__init__, TaskExtractor.str_or.
      assert (Hk' : String.eqb k "" = false) by (apply String.eqb_neq; exact Hk).
      rewrite Hk'. cbv beta iota. rewrite Hk'. reflexivity. }
    unfold process_email, TaskExtractor.extract_tasks. rewrite !Hinit.
    cbn [TaskReviewQueue.__init__ mbind result_bind with_environment_key extracted].
    cbv zeta.
    destruct (py_truthy _); [reflexivity|].
    destruct (py_iter _) as [tasks |]; step; [| reflexivity].
    rewrite (process_email_loop_clock w _ tasks); [reflexivity|].
    intros i. reflexivity.
Qed.

(** X13. Whatever [process_email] returns as a success is consistent: its
    [auto_approved_tasks] and [review_tasks] are the processed tasks that
    name those lanes, in processing order and with the high-priority ones
    first among the review tasks, and its [queue_summary] counts them, the
    total being the number of processed tasks. *)
Theorem process_email_success_consistent (w : world) (email_content : string)
    (sender api_key : option string) (r : dict) :
  process_email w email_content sender api_key = Ok r ->
  r !! "success" = Some (PyBool true) ->
  exists processed : list dict,
    task_list_entry r "processed_tasks" processed /\
    task_list_entry r "auto_approved_tasks"
      (List.filter (in_lane "auto_approved") processed) /\
    task_list_entry r "review_tasks"
      (List.filter (in_lane "high_priority_review") processed
       ++ List.filter (in_lane "standard_review") processed)%list /\
    summary_counts r processed /\
    r !! "extraction_result" = Some (PyDict (extracted w email_content sender)) /\
    r !! "error" = None.
Proof.
  unfold process_email, TaskExtractor.extract_tasks.
  destruct (TaskExtractor.__init__ w api_key) as [extractor |]; step; [| discriminate].
  cbn [TaskReviewQueue.__init__ mbind result_bind]. cbv zeta.
  set (extraction_result := extracted w email_content sender).
  destruct (py_truthy (dict_get extraction_result "error" PyNone)).
  - destruct (py_getitem_0 _) as [msg |]; step; [| discriminate].
    intros [= <-] Hs. exfalso. revert Hs. by simplify_map_eq.
  - destruct (py_iter _) as [tasks |]; step; [| discriminate].
    destruct (process_email_loop w 0 tasks [] _) as [[out q'] |] eqn:Hloop;
      step; [| discriminate].
    cbn [TaskReviewQueue.get_summary TaskReviewQueue.get_review_tasks]. step.
    intros [= <-] _.
    destruct (process_email_loop_inv w tasks _ _ _ _ _ Hloop)
      as (typed & routed & _ & _ & Hout & _ & Hlanes & Hsize).
    cbn [app] in Hout. subst out.
    pose proof (Hlanes "auto_approved") as Ha.
    pose proof (Hlanes "standard_review") as Hs.
    pose proof (Hlanes "high_priority_review") as Hh.
    cbn in Ha, Hs, Hh.
    unfold queue_size in Hsize. cbn [TaskReviewQueue.auto_approved
      TaskReviewQueue.standard_review TaskReviewQueue.high_priority_review
      length Nat.add] in Hsize.
    exists routed. unfold task_list_entry, summary_counts.
    split; [lookup|]. split; [rewrite <- Ha; lookup|].
    split; [rewrite <- Hh, <- Hs; lookup|].
    split; [| split; lookup].
    eexists. split; [lookup|].
    unfold TaskReviewQueue.len.
    split.
    + rewrite lookup_insert. do 2 f_equal. lia.
    + intros lane [<- | [<- | [<- | []]]];
        [rewrite <- Ha | rewrite <- Hs | rewrite <- Hh]; lookup.
Qed.

End PipelineMore.

Section PipelineEdges.

Context `{StrLower}.

(** The failure branch of [process_email], by the value read as message. *)
Lemma process_email_failure (w : world) (email_content : string)
    (sender api_key : option string) :
  returns (TaskExtractor.__init__ w api_key) ->
  py_truthy (dict_get (extracted w email_content sender) "error" PyNone) = true ->
  process_email w email_content sender api_key
  = (error ← py_getitem_0 (dict_get (extracted w email_content sender) "ambiguities"
                             (PyList [PyStr "Unknown error"]));
     Ok (failure_result error (extracted w email_content sender))).
Proof.
  intros [extractor Hinit] Herr.
  unfold process_email, TaskExtractor.extract_tasks. rewrite Hinit.
  cbn [TaskReviewQueue.__init__ mbind result_bind]. cbv zeta.
  rewrite Herr. reflexivity.
Qed.

(** The characters of a non-empty text. *)
Lemma str_chars_nonempty (s : string) :
  s <> "" -> exists ch more, str_chars s = ch :: more /\ ch <> "".
Proof.
  destruct s as [| c rest]; [intros Hs; contradiction|]. intros _.
  cbn [str_chars]. destruct (str_chars rest) as [| ch more].
  - eexists _, _. split; [reflexivity | discriminate].
  - destruct (continues rest); eexists _, _; (split; [reflexivity | discriminate]).
Qed.

(** X14. A failed extraction whose [ambiguities] entry is not a non-empty list:
    an empty list or an empty string make [process_email] raise
    [IndexError], [None] or a number [TypeError], a dictionary [KeyError];
    of a non-empty string the first character is reported as the error. *)
Theorem process_email_unreadable_error (w : world) (email_content : string)
    (sender api_key : option string) (ambiguities : pyval) :
  returns (TaskExtractor.__init__ w api_key) ->
  py_truthy (dict_get (extracted w email_content sender) "error" PyNone) = true ->
  extracted w email_content sender !! "ambiguities" = Some ambiguities ->
  let outcome := process_email w email_content sender api_key in
  (ambiguities = PyList [] \/ ambiguities = PyStr "" -> outcome = Raise IndexError) /\
  (scalar ambiguities -> outcome = Raise TypeError) /\
  ((exists d, ambiguities = PyDict d) -> outcome = Raise KeyError) /\
  (forall s, ambiguities = PyStr s -> s <> "" ->
     exists ch more,
       str_chars s = ch :: more /\ ch <> "" /\
       outcome = Ok (failure_result (PyStr ch) (extracted w email_content sender))).
Proof.
  intros Hinit Herr Hamb outcome. subst outcome.
  rewrite (process_email_failure w email_content sender api_key Hinit Herr).
  rewrite (dict_get_Some _ _ _ _ Hamb).
  split; [| split; [| split]].
  - intros [-> | ->]; reflexivity.
  - destruct ambiguities; cbn [scalar]; intros []; reflexivity.
  - intros [d ->]. reflexivity.
  - intros s -> Hs.
    destruct (str_chars_nonempty s Hs) as (ch & more & Hchars & Hch).
    exists ch, more. split; [exact Hchars|]. split; [exact Hch|].
    cbn [py_getitem_0]. rewrite Hchars. reflexivity.
Qed.

(** X15. Failures inside [extract_tasks] are reported, with one exception.
    A [JSONDecodeError] raised before [response_text] is assigned makes
    the handler itself raise [UnboundLocalError], which escapes.  Every
    other failure (the call raising another exception, text that is not
    JSON, JSON that is not an object) returns the standard error response
    with the message of the failure, stamped with the clock reading made
    by the handler, and [process_email] then returns [success = False]
    with that message.  Nothing is printed exactly when the answer was a
    JSON object. *)
Theorem extraction_failure_reported (time : nat -> string)
    (a : ExtractTasks.answer) :
  let outcome := ExtractTasks.extract_tasks time a in
  (outcome.2 = Raise UnboundLocalError <->
   exists m, a = ExtractTasks.CallRaised (ExtractTasks.JSONDecodeError m)) /\
  (returns outcome.2 <->
   forall m, a <> ExtractTasks.CallRaised (ExtractTasks.JSONDecodeError m)) /\
  (outcome.1 = [] <-> exists text d, a = ExtractTasks.Parsed text (PyDict d)) /\
  (forall (w : world) (email_content : string) (sender api_key : option string)
          (message : string),
     usable_key (TaskExtractor.str_or api_key (getenv_api_key w)) ->
     outcome.2 = Ok (extracted w email_content sender) ->
     extraction_failure a message ->
     extracted w email_content sender
     = TaskExtractor._create_error_response (time (error_reading a)) message /\
     process_email w email_content sender api_key
     = Ok (failure_result (PyStr message) (extracted w email_content sender))).
Proof.
  intros outcome. subst outcome.
  assert (Hreported : forall (w : world) (email_content : string)
            (sender api_key : option string) (now message : string),
            usable_key (TaskExtractor.str_or api_key (getenv_api_key w)) ->
            TaskExtractor._create_error_response now message
            = extracted w email_content sender ->
            process_email w email_content sender api_key
            = Ok (failure_result (PyStr message) (extracted w email_content sender))).
  { intros w email_content sender api_key now message Hkey Hex.
    assert (Hamb : extracted w email_content sender !! "ambiguities"
                   = Some (PyList [PyStr message])).
    { rewrite <- Hex. unfold TaskExtractor._create_error_response. lookup. }
    rewrite process_email_failure.
    - rewrite (dict_get_Some _ _ _ _ Hamb). reflexivity.
    - apply init_returns_iff. exact Hkey.
    - rewrite <- Hex. reflexivity. }
  destruct a as [[m | m] | text [m | m] | text v]; [| | | | destruct v];
    cbn [ExtractTasks.extract_tasks ExtractTasks.try_block fst snd error_reading];
    (split; [| split; [| split]]);
    try (split; [intros Hx; discriminate Hx
                | intros (m' & Hm'); discriminate Hm']);
    try (split; [intros _; eexists; reflexivity | intros (m' & Hm'); reflexivity]);
    try (split; [intros _ m' Hm'; discriminate Hm' | intros _; eexists; reflexivity]);
    try (split; [intros (d' & Hd'); discriminate Hd'
                | intros Hn; exfalso; exact (Hn m eq_refl)]);
    try (split; [intros Hx; discriminate Hx
                | intros (t' & d' & Hd'); discriminate Hd']);
    try (split; [intros _; eexists _, _; reflexivity | intros _; reflexivity]);
    intros w email_content sender api_key message Hkey Hout Hfail;
    cbn [extraction_failure] in Hfail; try contradiction;
    try discriminate Hout;
    subst message; injection Hout as Hex;
    (split; [symmetry; exact Hex | exact (Hreported _ _ _ _ _ _ Hkey Hex)]).
Qed.

(** The loop over a well-typed prefix followed by more tasks. *)
Lemma process_email_loop_app (w : world) (good : list dict) (more : list pyval) :
  Forall task_well_typed good ->
  forall (i : nat) (processed : list dict) (q : TaskReviewQueue.t),
  exists (routed : list dict) (q' : TaskReviewQueue.t),
    process_email_loop w i ((PyDict <$> good) ++ more)%list processed q
    = process_email_loop w (i + length good) more (processed ++ routed)%list q'.
Proof.
  induction 1 as [| task good Htask _ IH]; intros i processed q.
  - exists [], q. rewrite app_nil_r, Nat.add_0_r. reflexivity.
  - destruct (route_calculated q (clock w i) task Htask) as (m & rt & q1 & Hm & Hr & _).
    destruct (IH (S i) (append processed rt) q1) as (routed & q' & Hloop).
    exists (rt :: routed), q'.
    rewrite fmap_cons. cbn [app process_email_loop as_dict]. step.
    rewrite Hm. step. rewrite Hr. step.
    rewrite Hloop. unfold append. rewrite <- List.app_assoc.
    cbn [length]. rewrite Nat.add_succ_r. reflexivity.
Qed.

(** X16. A batch fails as its first ill-typed task does: when the tasks before
    it are well typed, [process_email] raises the exception that scoring
    this task raises, and returns nothing for the tasks before it. *)
Theorem process_email_first_failure (w : world) (email_content : string)
    (sender api_key : option string) (good : list dict) (bad : pyval)
    (rest : list pyval) (e : pyexn) :
  returns (TaskExtractor.__init__ w api_key) ->
  py_truthy (dict_get (extracted w email_content sender) "error" PyNone) = false ->
  py_iter (dict_get (extracted w email_content sender) "tasks" (PyList []))
  = Ok ((PyDict <$> good) ++ bad :: rest)%list ->
  Forall task_well_typed good ->
  scoring_raises bad e ->
  process_email w email_content sender api_key = Raise e.
Proof.
  intros [extractor Hinit] Herr Htasks Hgood Hbad.
  unfold process_email, TaskExtractor.extract_tasks. rewrite Hinit.
  cbn [TaskReviewQueue.__init__ mbind result_bind]. cbv zeta.
  rewrite Herr, Htasks. step.
  match goal with
  | |- context [process_email_loop w 0 _ [] ?q0] =>
      destruct (process_email_loop_app w good (bad :: rest) Hgood 0%nat [] q0)
        as (routed & q' & ->)
  end.
  cbn [process_email_loop]. unfold scoring_raises in Hbad.
  destruct (as_dict bad) as [d |]; cbn [mbind result_bind] in Hbad |- *.
  - rewrite Hbad. reflexivity.
  - injection Hbad as <-. reflexivity.
Qed.

End PipelineEdges.

(** ** The status shown by the application *)

(** The routed task, by the outcome of the two comparisons. *)
Lemma route_task_result (q q' : TaskReviewQueue.t) (now : string)
    (task confidence_metrics rt : dict) :
  TaskReviewQueue.route_task now task confidence_metrics q = Ok (rt, q') ->
  exists (v : pyval) (above_auto above_high : bool),
    confidence_metrics !! "final_confidence" = Some v /\
    py_ge_float v (TaskReviewQueue.auto_approve_threshold q) = Ok above_auto /\
    (above_auto = false ->
     py_ge_float v (TaskReviewQueue.high_priority_threshold q) = Ok above_high) /\
    rt = <["queue" := PyStr (band_lane above_auto above_high)]>
         (<["review_status" := PyStr (band_status above_auto above_high)]>
         (<["routed_at" := PyStr now]>
         (<["confidence_metrics" := PyDict confidence_metrics]> task))).
Proof.
  unfold TaskReviewQueue.route_task, dict_getitem.
  destruct (confidence_metrics !! "final_confidence") as [v|]; step; [| discriminate].
  destruct (py_ge_float v (TaskReviewQueue.auto_approve_threshold q)) as [[] |] eqn:H1;
    step; [| | discriminate].
  - intros [= <- _]. exists v, true, false.
    split; [reflexivity|]. split; [exact H1|]. split; [discriminate | reflexivity].
  - destruct (py_ge_float v (TaskReviewQueue.high_priority_threshold q))
      as [b2 |] eqn:H2; step; [| discriminate].
    destruct b2; intros [= <- _]; exists v, false; eexists;
      (split; [reflexivity|]); (split; [exact H1|]);
      (split; [intros _; exact H2 | reflexivity]).
Qed.

(** X17. The application can show every routed task, whatever the threshold of
    its sidebar; when that threshold is the queue's [auto_approve_threshold]
    and the queue's [high_priority_threshold] is [0.5], the status shown is
    the [review_status] given by the router. *)
Theorem routed_task_display (q q' : TaskReviewQueue.t) (now : string)
    (task confidence_metrics rt : dict) (confidence_threshold : F64.t) :
  TaskReviewQueue.route_task now task confidence_metrics q = Ok (rt, q') ->
  returns (App.status_display confidence_threshold rt) /\
  (TaskReviewQueue.auto_approve_threshold q = confidence_threshold ->
   TaskReviewQueue.high_priority_threshold q = F64.lit_0_5 ->
   exists emoji box status,
     rt !! "review_status" = Some (PyStr status) /\
     App.status_display confidence_threshold rt = Ok (emoji, box, shown_status status)).
Proof.
  intros Hr.
  destruct (route_task_inv q q' now task confidence_metrics rt Hr)
    as (v0 & _ & _ & Hv0 & Hc & _).
  destruct (route_task_result q q' now task confidence_metrics rt Hr)
    as (v & b1 & b2 & Hv & H1 & H2 & ->).
  rewrite Hv0 in Hv. injection Hv as <-.
  assert (Hcm : forall s b,
    (<["queue" := PyStr s]> (<["review_status" := PyStr b]>
      (<["routed_at" := PyStr now]>
      (<["confidence_metrics" := PyDict confidence_metrics]> task))))
    !! "confidence_metrics" = Some (PyDict confidence_metrics)) by (intros; lookup).
  split.
  - unfold App.status_display, dict_getitem. rewrite Hcm. step.
    cbn [App.py_getitem_key]. unfold dict_getitem. rewrite Hv0. step.
    destruct (py_ge_float_comparable v0 confidence_threshold Hc) as [a Ha].
    destruct (py_ge_float_comparable v0 F64.lit_0_5 Hc) as [b Hb].
    rewrite Ha. step. destruct a; [eexists; reflexivity|].
    rewrite Hb. step. destruct b; eexists; reflexivity.
  - intros Hauto Hhigh. rewrite Hauto in H1. rewrite Hhigh in H2.
    unfold App.status_display, dict_getitem. rewrite Hcm. step.
    cbn [App.py_getitem_key]. unfold dict_getitem. rewrite Hv0. step.
    rewrite H1. step.
    destruct b1.
    + eexists _, _, _. split; [lookup|]. reflexivity.
    + rewrite (H2 eq_refl). step.
      destruct b2; (eexists _, _, _; split; [lookup|]; reflexivity).
Qed.

(** X18. With the default queue the status shown follows the threshold of the
    sidebar while the router follows [0.7]: a task of float confidence [c]
    is shown as auto-approved exactly when [confidence_threshold <= c], and
    routed as auto-approved exactly when [0.7 <= c]. *)
Theorem display_follows_sidebar (q : TaskReviewQueue.t) (now : string)
    (task confidence_metrics : dict) (c confidence_threshold : F64.t) :
  default_thresholds q ->
  confidence_metrics !! "final_confidence" = Some (PyFloat c) ->
  exists (rt : dict) (q' : TaskReviewQueue.t) (emoji box shown status : string),
    TaskReviewQueue.route_task now task confidence_metrics q = Ok (rt, q') /\
    rt !! "review_status" = Some (PyStr status) /\
    App.status_display confidence_threshold rt = Ok (emoji, box, shown) /\
    (status = "auto_approved" <-> F64.leb F64.lit_0_7 c = true) /\
    (shown = "Auto-Approved" <-> F64.leb confidence_threshold c = true).
Proof.
  intros [Ha Hh] Hc.
  pose proof (route_task_float q now task confidence_metrics c Hc) as Hroutes.
  rewrite Ha, Hh in Hroutes.
  destruct Hroutes as (rt & q' & Hr & _ & Hstatus & _).
  destruct (route_task_result q q' now task confidence_metrics rt Hr)
    as (v & b1 & b2 & Hv & _ & _ & Hrt).
  assert (Hcm : rt !! "confidence_metrics" = Some (PyDict confidence_metrics))
    by (subst rt; lookup).
  assert (Hd : App.status_display confidence_threshold rt
               = (if F64.leb confidence_threshold c
                  then Ok ("🟢", "success-box", "Auto-Approved")
                  else if F64.leb F64.lit_0_5 c
                       then Ok ("🟡", "warning-box", "Needs Review")
                       else Ok ("🔴", "danger-box", "Urgent Review"))).
  { unfold App.status_display, dict_getitem. rewrite Hcm. step.
    cbn [App.py_getitem_key]. unfold dict_getitem. rewrite Hc. step.
    rewrite !py_ge_float_leb. step.
    destruct (F64.leb confidence_threshold c); [reflexivity|]. step.
    destruct (F64.leb F64.lit_0_5 c); reflexivity. }
  exists rt, q'.
  revert Hstatus Hd.
  generalize (F64.leb confidence_threshold c) (F64.leb F64.lit_0_7 c)
             (F64.leb F64.lit_0_5 c).
  intros [] [] []; cbn [band_status]; intros Hstatus Hd;
    eexists _, _, _, _; (split; [exact Hr|]); (split; [exact Hstatus|]);
    (split; [exact Hd|]); split; split; intros Hx; try reflexivity; discriminate Hx.
Qed.

(** ** The properties at sample inputs *)

Lemma calculate_exceptions_witness :
  @calculate_final_confidence ascii_lower task_numbered_description = Raise AttributeError /\
  @calculate_final_confidence ascii_lower task_text_score = Raise TypeError /\
  @calculate_final_confidence ascii_lower task_huge_score = Raise OverflowError /\
  returns (@calculate_final_confidence ascii_lower task_clear).
Proof.
  split; [| split; [| split]].
  - apply (proj1 (@calculate_exceptions ascii_lower task_numbered_description) (PyInt 7)).
    + vm_compute. reflexivity.
    + intros s. discriminate.
  - apply (proj1 (proj2 (@calculate_exceptions ascii_lower task_text_score))
             "Send the Q1 report" (PyStr "0.95")).
    + left. vm_compute. reflexivity.
    + vm_compute. reflexivity.
    + exact I.
  - apply (proj1 (proj2 (proj2 (@calculate_exceptions ascii_lower task_huge_score)))
             "Send the Q1 report" (10 ^ 400)).
    + left. vm_compute. reflexivity.
    + vm_compute. reflexivity.
    + vm_compute. reflexivity.
  - apply (proj2 (proj2 (proj2 (@calculate_exceptions ascii_lower task_clear)))).
    split; [vm_compute; exact I|].
    exists "Send the Q1 report". left. vm_compute. reflexivity.
Defined.

Lemma adjustments_account_for_penalties_witness :
  exists (m : dict) (pen : F64.t) (adj : list pyval),
    @calculate_final_confidence ascii_lower task_sample = Ok m /\
    m !! "rule_penalties" = Some (PyFloat pen) /\
    m !! "adjustments" = Some (PyList adj) /\
    named_penalties adj = pen /\
    (length adj <= 3)%nat /\
    List.NoDup adj /\
    (adj = [] <-> pen = F64.zero) /\
    F64.leb F64.zero pen = true /\
    F64.ltb pen (F64.decimal 45 2) = true.
Proof.
  apply (@adjustments_account_for_penalties ascii_lower task_sample).
  split; [vm_compute; exact I|].
  exists "Finalize the REPORT". left. vm_compute. reflexivity.
Defined.

Lemma needs_review_matches_default_routing_witness :
  exists (m : dict) (needs_review : bool) (lane status : string),
    @calculate_final_confidence ascii_lower task_sample = Ok m /\
    m !! "needs_review" = Some (PyBool needs_review) /\
    routes_to (TaskReviewQueue.route_task timestamp_sample task_sample m queue_sample)
      queue_sample lane status /\
    (needs_review = false <-> lane = "auto_approved").
Proof.
  apply (@needs_review_matches_default_routing ascii_lower task_sample
           timestamp_sample queue_sample).
  - split; [vm_compute; exact I|].
    exists "Finalize the REPORT". left. vm_compute. reflexivity.
  - split; reflexivity.
Defined.

Lemma calculate_reads_four_fields_witness :
  @calculate_final_confidence ascii_lower task_considerable
  = @calculate_final_confidence ascii_lower task_considerable_edited.
Proof.
  apply (@calculate_reads_four_fields ascii_lower task_considerable
           task_considerable_edited).
  repeat split; vm_compute; reflexivity.
Defined.

Lemma vague_rule_is_substring_test_witness :
  exists (m : dict) (adj : list pyval),
    @calculate_final_confidence ascii_lower task_considerable = Ok m /\
    m !! "adjustments" = Some (PyList adj) /\
    (In (PyStr "Vague language detected (-0.10)") adj <->
     exists word pre post,
       In word hedge_words /\
       @str_lower ascii_lower "A CONSIDERABLE rework of the parser" = pre ++ word ++ post) /\
    (In (PyStr "Vague language detected (-0.10)") adj ->
     exists before,
       adj = (before ++ [PyStr "Vague language detected (-0.10)"])%list /\
       ~ In (PyStr "Vague language detected (-0.10)") before).
Proof.
  apply (@vague_rule_is_substring_test ascii_lower task_considerable
           "A CONSIDERABLE rework of the parser").
  - vm_compute. eexists. reflexivity.
  - left. vm_compute. reflexivity.
Defined.

Lemma route_task_keeps_task_fields_witness :
  exists (rt : dict) (q' : TaskReviewQueue.t),
    TaskReviewQueue.route_task timestamp_sample task_rerouted
      (metrics_sample (F64.decimal 95 2)) queue_sample = Ok (rt, q') /\
    rt !! "confidence_metrics" = Some (PyDict (metrics_sample (F64.decimal 95 2))) /\
    rt !! "routed_at" = Some (PyStr timestamp_sample) /\
    (exists lane status,
       In (lane, status) lane_status_pairs /\
       rt !! "queue" = Some (PyStr lane) /\
       rt !! "review_status" = Some (PyStr status)) /\
    (forall key, ~ In key routing_keys -> rt !! key = task_rerouted !! key).
Proof.
  destruct (route_task_returns queue_sample timestamp_sample task_rerouted
              (metrics_sample (F64.decimal 95 2)) (PyFloat (F64.decimal 95 2))
              (proj1 (proj2 (proj2 (metrics_lookup _ _ _ _))))  I)
    as (b1 & b2 & rt & q' & Hr & _).
  exists rt, q'. split; [exact Hr|].
  exact (route_task_keeps_task_fields queue_sample q' timestamp_sample task_rerouted
           (metrics_sample (F64.decimal 95 2)) rt Hr).
Defined.

Lemma route_task_monotone_witness :
  exists lane1 status1 lane2 status2,
    routes_to (TaskReviewQueue.route_task timestamp_sample task_sample
                 (metrics_sample (F64.decimal 6 1)) queue_sample)
      queue_sample lane1 status1 /\
    routes_to (TaskReviewQueue.route_task timestamp_sample task_clear
                 (metrics_sample (F64.decimal 95 2)) queue_sample)
      queue_sample lane2 status2 /\
    (lane_rank lane1 <= lane_rank lane2)%nat.
Proof.
  apply (route_task_monotone queue_sample timestamp_sample timestamp_sample
           task_sample task_clear (metrics_sample (F64.decimal 6 1))
           (metrics_sample (F64.decimal 95 2)) (F64.decimal 6 1) (F64.decimal 95 2)).
  - vm_compute. reflexivity.
  - vm_compute. reflexivity.
  - vm_compute. reflexivity.
Defined.

Lemma inverted_thresholds_skip_standard_review_witness :
  (routes_to (TaskReviewQueue.route_task timestamp_sample task_sample
                (metrics_sample (F64.decimal 6 1)) queue_inverted)
     queue_inverted "auto_approved" "auto_approved" \/
   routes_to (TaskReviewQueue.route_task timestamp_sample task_sample
                (metrics_sample (F64.decimal 6 1)) queue_inverted)
     queue_inverted "high_priority_review" "needs_urgent_review") /\
  (forall rt q',
     TaskReviewQueue.route_task timestamp_sample task_sample
       (metrics_sample (F64.decimal 6 1)) queue_inverted = Ok (rt, q') ->
     TaskReviewQueue.standard_review q' = TaskReviewQueue.standard_review queue_inverted).
Proof.
  apply (inverted_thresholds_skip_standard_review queue_inverted timestamp_sample
           task_sample (metrics_sample (F64.decimal 6 1)) (F64.decimal 6 1)).
  - vm_compute. reflexivity.
  - vm_compute. reflexivity.
Defined.

Lemma route_tasks_all_or_nothing_witness :
  exists (routed : list dict) (q' : TaskReviewQueue.t),
    TaskReviewQueue.route_tasks calls_sample queue_sample = Ok (routed, q') /\
    length routed = 4%nat /\
    queue_size q' = 6%nat.
Proof.
  destruct (proj2 (proj1 (route_tasks_all_or_nothing calls_sample queue_sample)))
    as [[routed q'] Hr].
  - repeat constructor; eexists; (split; [vm_compute; reflexivity | exact I]).
  - exists routed, q'. split; [exact Hr|].
    destruct (proj2 (route_tasks_all_or_nothing calls_sample queue_sample)
                routed q' Hr) as (Hlen & _ & Hsize & _).
    split; [exact Hlen | exact Hsize].
Defined.

Lemma process_email_needs_api_key_witness :
  @process_email ascii_lower (with_environment_key world_sample None)
    "Hi team" None (Some "") = Raise ValueError /\
  @process_email ascii_lower (with_environment_key world_sample None)
    "Hi team" None (Some "sk-argument")
  = @process_email ascii_lower world_sample "Hi team" None (Some "sk-argument").
Proof.
  split.
  - apply (proj1 (@process_email_needs_api_key ascii_lower
                    (with_environment_key world_sample None) "Hi team" None (Some ""))).
    intros (k & Hk & Hne). vm_compute in Hk. discriminate Hk.
  - apply (proj2 (@process_email_needs_api_key ascii_lower world_sample
                    "Hi team" None (Some "sk-argument"))).
    exists "sk-argument". split; [reflexivity | discriminate].
Defined.

Lemma process_email_success_consistent_witness :
  exists (r : dict) (processed : list dict),
    @process_email ascii_lower world_sample "Hi team" None None = Ok r /\
    task_list_entry r "processed_tasks" processed /\
    task_list_entry r "auto_approved_tasks"
      (List.filter (in_lane "auto_approved") processed) /\
    task_list_entry r "review_tasks"
      (List.filter (in_lane "high_priority_review") processed
       ++ List.filter (in_lane "standard_review") processed)%list /\
    summary_counts r processed.
Proof.
  destruct (@process_email_success ascii_lower world_sample "Hi team" None None
              [task_sample; task_clear; task_no_score]) as (r & Hr & Hs).
  - eexists. reflexivity.
  - vm_compute. reflexivity.
  - vm_compute. reflexivity.
  - repeat constructor; try (vm_compute; exact I);
      eexists; left; vm_compute; reflexivity.
  - destruct (@process_email_success_consistent ascii_lower world_sample "Hi team"
                None None r Hr Hs) as (processed & Hp & Ha & Hv & Hc & _).
    exists r, processed. repeat split; assumption.
Defined.

Lemma process_email_unreadable_error_witness :
  @process_email ascii_lower world_no_message "Hi team" None None = Raise IndexError /\
  exists more,
    str_chars "élan vital" = "é" :: more /\
    @process_email ascii_lower world_text_message "Hi team" None None
    = Ok (failure_result (PyStr "é") extraction_text_message).
Proof.
  split.
  - apply (proj1 (@process_email_unreadable_error ascii_lower world_no_message
                    "Hi team" None None (PyList [])
                    (ex_intro _ _ eq_refl) eq_refl eq_refl)).
    left. reflexivity.
  - destruct (proj2 (proj2 (proj2
                (@process_email_unreadable_error ascii_lower world_text_message
                   "Hi team" None None (PyStr "élan vital")
                   (ex_intro _ _ eq_refl) eq_refl eq_refl)))
                "élan vital" eq_refl)
      as (ch & more & Hchars & _ & Hout).
    + discriminate.
    + injection Hchars as <- <-. eexists. split; [reflexivity | exact Hout].
Defined.

Lemma extraction_failure_reported_witness :
  (ExtractTasks.extract_tasks clock_sample
     (ExtractTasks.CallRaised
        (ExtractTasks.JSONDecodeError "Expecting value: line 1 column 1 (char 0)"))).2
  = Raise UnboundLocalError /\
  @process_email ascii_lower world_array "Hi team" None None
  = Ok (failure_result (PyStr "list indices must be integers or slices, not str")
          (extracted world_array "Hi team" None)).
Proof.
  split.
  - apply (proj1 (@extraction_failure_reported ascii_lower clock_sample
                    (ExtractTasks.CallRaised
                       (ExtractTasks.JSONDecodeError
                          "Expecting value: line 1 column 1 (char 0)")))).
    eexists. reflexivity.
  - refine (proj2 (proj2 (proj2 (proj2
              (@extraction_failure_reported ascii_lower clock_sample answer_array)))
              world_array "Hi team" None None
              "list indices must be integers or slices, not str" _ _ _)).
    + exists "sk-sample". split; [reflexivity | discriminate].
    + reflexivity.
    + reflexivity.
Defined.

Lemma process_email_first_failure_witness :
  @process_email ascii_lower world_mixed "Hi team" None None = Raise AttributeError.
Proof.
  apply (@process_email_first_failure ascii_lower world_mixed "Hi team" None None
           [task_clear] PyNone [PyDict task_sample] AttributeError).
  - eexists. reflexivity.
  - vm_compute. reflexivity.
  - vm_compute. reflexivity.
  - repeat constructor; try (vm_compute; exact I).
    eexists; left; vm_compute; reflexivity.
  - reflexivity.
Defined.

Lemma routed_task_display_witness :
  exists (rt : dict) (q' : TaskReviewQueue.t) (emoji box status : string),
    TaskReviewQueue.route_task timestamp_sample task_clear
      (metrics_sample (F64.decimal 6 1)) queue_sample = Ok (rt, q') /\
    rt !! "review_status" = Some (PyStr status) /\
    App.status_display F64.lit_0_7 rt = Ok (emoji, box, shown_status status).
Proof.
  destruct (route_task_returns queue_sample timestamp_sample task_clear
              (metrics_sample (F64.decimal 6 1)) (PyFloat (F64.decimal 6 1))
              (proj1 (proj2 (proj2 (metrics_lookup _ _ _ _)))) I)
    as (b1 & b2 & rt & q' & Hr & _).
  destruct (proj2 (routed_task_display queue_sample q' timestamp_sample task_clear
                     (metrics_sample (F64.decimal 6 1)) rt F64.lit_0_7 Hr)
              eq_refl eq_refl)
    as (emoji & box & status & Hstatus & Hshown).
  exists rt, q', emoji, box, status. repeat split; assumption.
Defined.

Lemma display_follows_sidebar_witness :
  exists (rt : dict) (q' : TaskReviewQueue.t) (emoji box shown status : string),
    TaskReviewQueue.route_task timestamp_sample task_clear
      (metrics_sample (F64.decimal 65 2)) queue_sample = Ok (rt, q') /\
    rt !! "review_status" = Some (PyStr status) /\
    App.status_display (F64.decimal 6 1) rt = Ok (emoji, box, shown) /\
    (status = "auto_approved" <-> F64.leb F64.lit_0_7 (F64.decimal 65 2) = true) /\
    (shown = "Auto-Approved" <-> F64.leb (F64.decimal 6 1) (F64.decimal 65 2) = true).
Proof.
  apply (display_follows_sidebar queue_sample timestamp_sample task_clear
           (metrics_sample (F64.decimal 65 2)) (F64.decimal 65 2) (F64.decimal 6 1)).
  - split; reflexivity.
  - vm_compute. reflexivity.
Defined.
